(** * ProspektMaschinenScraper: a shallow embedding of [script.py]

    The development follows the source file top-down: Python strings and the
    three regular expressions of [parse_date], the markup queries used by the
    extractor, then the methods [get_page_content], [parse_date],
    [get_hypermarket_links], [extract_brochure_data],
    [get_brochures_for_shop] and [scrape_all_hypermarkets], written in a
    state-and-exception monad: the state is the outside world together with
    the records handed to the logger, the errors are Python exceptions, and
    [try ... except] is [try_except].

    What the program takes from outside the repository is gathered in the
    class [Platform]: the Unicode digits beyond ASCII, the clock, the HTTP
    session with the HTML parser, [time.sleep] and the URL resolution of
    [urllib].  Every statement below holds for every platform; the sample
    platform at the end of the definitions is there to run examples.
    [configure_logging], [save_to_json] and [run] only set up the logger
    and write the aggregate to a file, and are left out. *)

From Stdlib Require Import String Ascii.
From Stdlib Require Import List NArith Bool Lia Arith.
Import ListNotations.

Set Warnings "-register-all".

(** ** Python strings *)

(** A Python [str] is a sequence of Unicode code points. *)
Definition char := N.
Definition str := list char.

(** ASCII literals of the source, written as Rocq strings. *)
Definition py (s : string) : str := map N_of_ascii (list_ascii_of_string s).

Fixpoint str_eqb (a b : str) : bool :=
  match a, b with
  | [], [] => true
  | x :: a', y :: b' => N.eqb x y && str_eqb a' b'
  | _, _ => false
  end.

(** Truth value of a string in a condition: non-empty. *)
Definition truthy (s : str) : bool :=
  match s with [] => false | _ :: _ => true end.

(** The characters [str.strip()] removes: Unicode white space. *)
Definition is_space (c : char) : bool :=
  ((9 <=? c) && (c <=? 13) || (28 <=? c) && (c <=? 32)
   || (c =? 133) || (c =? 160) || (c =? 5760)
   || (8192 <=? c) && (c <=? 8202) || (c =? 8232) || (c =? 8233)
   || (c =? 8239) || (c =? 8287) || (c =? 12288))%N.

Fixpoint lstrip (s : str) : str :=
  match s with
  | [] => []
  | c :: t => if is_space c then lstrip t else s
  end.

Definition rstrip (s : str) : str := rev (lstrip (rev s)).

Definition strip (s : str) : str := rstrip (lstrip s).

(** [s.split(sep)] for a one-character separator: never the empty list. *)
Fixpoint split (sep : char) (s : str) : list str :=
  match s with
  | [] => [[]]
  | c :: t =>
      if (c =? sep)%N then [] :: split sep t
      else match split sep t with
           | h :: r => (c :: h) :: r
           | [] => [[c]]
           end
  end.

Fixpoint startswith (prefix s : str) : bool :=
  match prefix, s with
  | [], _ => true
  | p :: prefix', c :: s' => N.eqb p c && startswith prefix' s'
  | _ :: _, [] => false
  end.

(** [str(n)] for a non-negative integer. *)
Fixpoint uint_chars (d : Decimal.uint) : str :=
  match d with
  | Decimal.Nil => []
  | Decimal.D0 d => 48%N :: uint_chars d
  | Decimal.D1 d => 49%N :: uint_chars d
  | Decimal.D2 d => 50%N :: uint_chars d
  | Decimal.D3 d => 51%N :: uint_chars d
  | Decimal.D4 d => 52%N :: uint_chars d
  | Decimal.D5 d => 53%N :: uint_chars d
  | Decimal.D6 d => 54%N :: uint_chars d
  | Decimal.D7 d => 55%N :: uint_chars d
  | Decimal.D8 d => 56%N :: uint_chars d
  | Decimal.D9 d => 57%N :: uint_chars d
  end.

Definition str_of_int (n : N) : str := uint_chars (N.to_uint n).

(** [str(n).zfill(w)], as [strftime] pads its fields. *)
Definition zfill (w : nat) (n : N) : str :=
  let s := str_of_int n in repeat 48%N (w - length s) ++ s.

(** ** The platform

    What the program gets from outside the repository: the Unicode table
    behind [\d], the wall clock, the HTTP session with the HTML parser, the
    pause between requests and [urllib]'s resolution of a reference against
    a base. *)

Record datetime := mk_datetime {
  year : N; month : N; day : N; hour : N; minute : N; second : N
}.

(** Elements and text of a parsed page.  [classes] is the multi-valued
    [class] attribute, which the parser stores as a list; [attrs] holds
    the other attributes, looked up by name.  [Text] is a string that
    counts for [.text]; comments and the like, which do not, have no
    node here. *)
Inductive Node :=
| Text (s : str)
| Elem (name : str) (classes : list str) (attrs : list (str * str))
       (children : list Node).

Class Platform := {
  World : Type;
  (** the decimal digits of category Nd beyond ASCII *)
  unicode_Nd : char -> bool;
  (** [datetime.datetime.now()] *)
  clock : World -> datetime * World;
  (** [session.get], [raise_for_status] and [BeautifulSoup(...)]: the parsed
      page, or [None] for a [RequestException] *)
  http_get : str -> World -> option Node * World;
  (** [time.sleep] *)
  sleep : N -> World -> World;
  (** [urljoin] on a non-empty base and reference; [None] is its [ValueError] *)
  urlresolve : str -> str -> option str
}.

(** ** Regular expressions

    The three patterns of [parse_date] are sequences of counted
    one-character classes, some of them captured. *)

Inductive cls :=
| Digit            (* \d *)
| Lit (c : char).  (* an escaped literal *)

Inductive piece :=
| Rep (k : cls) (n : nat)   (* k{n} *)
| Cap (k : cls) (n : nat).  (* (k{n}) *)

Definition regex := list piece.

Definition dot : char := 46%N.
Definition dash : char := 45%N.

(** r'(\d{2})\.(\d{2})\.(\d{4})' *)
Definition date_pattern_full : regex :=
  [Cap Digit 2; Rep (Lit dot) 1; Cap Digit 2; Rep (Lit dot) 1; Cap Digit 4].

(** r'(\d{2})\.(\d{2})\.' *)
Definition date_pattern_short : regex :=
  [Cap Digit 2; Rep (Lit dot) 1; Cap Digit 2; Rep (Lit dot) 1].

(** r'(\d{4})' *)
Definition year_pattern : regex := [Cap Digit 4].

(** A match object: where it starts and what its groups captured. *)
Record Match := mk_match { m_start : nat; groups : list str }.

Section Regex.
Context {P : Platform}.

(** [\d] on a [str] pattern: any Unicode decimal digit. *)
Definition is_digit (c : char) : bool :=
  ((48 <=? c) && (c <=? 57) || (127 <? c) && unicode_Nd c)%N.

Definition in_cls (k : cls) (c : char) : bool :=
  match k with
  | Digit => is_digit c
  | Lit l => N.eqb c l
  end.

(** Exactly [n] characters of class [k] at the head of [s]. *)
Fixpoint take_cls (k : cls) (n : nat) (s : str) : option (str * str) :=
  match n with
  | O => Some ([], s)
  | S n' =>
      match s with
      | c :: t =>
          if in_cls k c then
            match take_cls k n' t with
            | Some (u, r) => Some (c :: u, r)
            | None => None
            end
          else None
      | [] => None
      end
  end.

(** The pattern anchored at the head of [s]: the groups and the rest. *)
Fixpoint match_here (p : regex) (s : str) : option (list str * str) :=
  match p with
  | [] => Some ([], s)
  | Rep k n :: p' =>
      match take_cls k n s with
      | Some (_, r) => match_here p' r
      | None => None
      end
  | Cap k n :: p' =>
      match take_cls k n s with
      | Some (u, r) =>
          match match_here p' r with
          | Some (gs, r') => Some (u :: gs, r')
          | None => None
          end
      | None => None
      end
  end.

(** [re.search]: the first position, from the left, where the pattern
    matches. *)
Fixpoint search_from (i : nat) (p : regex) (s : str) : option Match :=
  match match_here p s with
  | Some (gs, _) => Some (mk_match i gs)
  | None =>
      match s with
      | [] => None
      | _ :: t => search_from (S i) p t
      end
  end.

Definition re_search (p : regex) (s : str) : option Match :=
  search_from 0 p s.

End Regex.

(** ** The logger, the state and the monad *)

Inductive level := INFO | WARNING | ERROR.

(** A Python exception, as far as the program can meet one. *)
Inductive exn :=
| ValueError   (* a failed unpacking, or [urljoin] on a malformed URL *)
| IndexError   (* [group(1)] on a match without groups *)
| RequestException.  (* a failed request *)

Inductive log_arg :=
| AStr (s : str)
| AInt (n : nat)
| AExc (e : exn).

(** A log record keeps its format string and arguments apart, as
    [logging] does. *)
Record log_record := mk_log {
  log_level : level; log_msg : string; log_args : list log_arg
}.

(** What running a piece of code gives: a value, or a raised exception. *)
Inductive outcome (A : Type) :=
| Ok (a : A)
| Raise (e : exn).
Arguments Ok {A} a.
Arguments Raise {A} e.

Section Monad.
Context {P : Platform}.

(** The state: the outside world and the records logged so far, the
    latest first. *)
Record St := mk_St { world : World; logged : list log_record }.

Definition M (A : Type) : Type := St -> outcome A * St.

Definition ret {A} (a : A) : M A := fun st => (Ok a, st).

Definition bind {A B} (c : M A) (k : A -> M B) : M B :=
  fun st =>
    match c st with
    | (Ok a, st') => k a st'
    | (Raise e, st') => (Raise e, st')
    end.

Definition raise {A} (e : exn) : M A := fun st => (Raise e, st).

(** [try: c  except Exception as e: h e] *)
Definition try_except {A} (c : M A) (h : exn -> M A) : M A :=
  fun st =>
    match c st with
    | (Ok a, st') => (Ok a, st')
    | (Raise e, st') => h e st'
    end.

Definition emit (l : level) (msg : string) (args : list log_arg) : M unit :=
  fun st => (Ok tt, mk_St (world st) (mk_log l msg args :: logged st)).

(** An operation of the platform, lifted to the state. *)
Definition io {A} (f : World -> A * World) : M A :=
  fun st => let (a, w) := f (world st) in (Ok a, mk_St w (logged st)).

End Monad.

Declare Scope py_scope.
Delimit Scope py_scope with py.
Notation "x <- c ;; k" := (bind c (fun x => k))
  (at level 61, c at next level, right associativity) : py_scope.
Notation "' pat <- c ;; k" := (bind c (fun x => match x with pat => k end))
  (at level 61, pat pattern, c at next level, right associativity) : py_scope.
Notation "c ;; k" := (bind c (fun _ => k))
  (at level 61, right associativity) : py_scope.
Open Scope py_scope.

Section ParseDate.
Context {P : Platform}.

Definition logger_info := emit INFO.
Definition logger_warning := emit WARNING.
Definition logger_error := emit ERROR.

(** [a, b, c = m.groups()] *)
Definition unpack3 (l : list str) : M (str * str * str) :=
  match l with
  | [a; b; c] => ret (a, b, c)
  | _ => raise ValueError
  end.

(** [a, b = m.groups()] *)
Definition unpack2 (l : list str) : M (str * str) :=
  match l with
  | [a; b] => ret (a, b)
  | _ => raise ValueError
  end.

(** [m.group(1)] *)
Definition group1 (m : Match) : M str :=
  match groups m with
  | g :: _ => ret g
  | [] => raise IndexError
  end.

(** f"{y}-{m}-{d}" *)
Definition iso_date (y m d : str) : str := y ++ [dash] ++ m ++ [dash] ++ d.

(** The body of the [try] block of [parse_date]. *)
Definition parse_date_body (date_str : str) : M (option str * option str) :=
  let parts := split dash (strip date_str) in
  if negb (length parts =? 2) then
    logger_warning "Neocakavany format datumu: %s" [AStr date_str] ;;
    ret (None, None)
  else
    let date_from_str := strip (nth 0 parts []) in
    let date_to_str := strip (nth 1 parts []) in
    let from_match_full := re_search date_pattern_full date_from_str in
    let to_match_full := re_search date_pattern_full date_to_str in
    match from_match_full, to_match_full with
    | Some from_match_full, Some to_match_full =>
        '(from_day, from_month, from_year) <- unpack3 (groups from_match_full) ;;
        '(to_day, to_month, to_year) <- unpack3 (groups to_match_full) ;;
        let valid_from := iso_date from_year from_month from_day in
        let valid_to := iso_date to_year to_month to_day in
        ret (Some valid_from, Some valid_to)
    | _, _ =>
        let from_match_short := re_search date_pattern_short date_from_str in
        let to_match_short := re_search date_pattern_short date_to_str in
        match from_match_short, to_match_short with
        | Some from_match_short, Some to_match_short =>
            '(from_day, from_month) <- unpack2 (groups from_match_short) ;;
            '(to_day, to_month) <- unpack2 (groups to_match_short) ;;
            now <- io clock ;;
            let current_year := str_of_int (year now) in
            let year_match := re_search year_pattern date_str in
            year <- match year_match with
                    | Some year_match => group1 year_match
                    | None => ret current_year
                    end ;;
            let valid_from := iso_date year from_month from_day in
            let valid_to := iso_date year to_month to_day in
            ret (Some valid_from, Some valid_to)
        | _, _ =>
            logger_warning "Nepodarilo sa extrahovat datumy z: %s" [AStr date_str] ;;
            ret (None, None)
        end
    end.

(** The [except Exception as e] clause of [parse_date]. *)
Definition parse_date_except (date_str : str) (e : exn)
  : M (option str * option str) :=
  logger_error "Chyba pri parsovani datumu %s: %s" [AStr date_str; AExc e] ;;
  ret (None, None).

Definition parse_date (date_str : str) : M (option str * option str) :=
  try_except (parse_date_body date_str) (parse_date_except date_str).

End ParseDate.

(** ** Markup queries *)

(** The elements and strings below a node, in document order. *)
Fixpoint descendants (n : Node) : list Node :=
  match n with
  | Text _ => []
  | Elem _ _ _ cs => flat_map (fun c => c :: descendants c) cs
  end.

(** [.text]: the strings below a node, concatenated. *)
Fixpoint get_text (n : Node) : str :=
  match n with
  | Text s => s
  | Elem _ _ _ cs => flat_map get_text cs
  end.

(** [' '.join(l)] *)
Fixpoint join_spaces (l : list str) : str :=
  match l with
  | [] => []
  | [a] => a
  | a :: r => a ++ 32%N :: join_spaces r
  end.

(** [class_=q]: one of the classes is [q], or the whole attribute is. *)
Definition has_class (q : str) (cl : list str) : bool :=
  existsb (fun c => str_eqb c q) cl || str_eqb (join_spaces cl) q.

Definition matches (tag : str) (class_ : option str) (n : Node) : bool :=
  match n with
  | Text _ => false
  | Elem nm cl _ _ =>
      str_eqb nm tag &&
      match class_ with
      | None => true
      | Some q => has_class q cl
      end
  end.

Definition find_all (tag : str) (class_ : option str) (n : Node) : list Node :=
  filter (matches tag class_) (descendants n).

Definition find (tag : str) (class_ : option str) (n : Node) : option Node :=
  hd_error (find_all tag class_ n).

Fixpoint lookup (key : str) (d : list (str * str)) : option str :=
  match d with
  | [] => None
  | (k, v) :: r => if str_eqb k key then Some v else lookup key r
  end.

(** [element.get(key)] *)
Definition get (key : str) (n : Node) : option str :=
  match n with
  | Text _ => None
  | Elem _ _ attrs _ => lookup key attrs
  end.

(** Truth value of a string that may be [None]. *)
Definition truthy_opt (o : option str) : bool :=
  match o with
  | Some s => truthy s
  | None => false
  end.

(** [a or b] *)
Definition py_or (a b : option str) : option str :=
  if truthy_opt a then a else b.

(** ** The records *)

(** One entry of [get_hypermarket_links]: the dictionary with keys
    "url" and "name". *)
Record Hypermarket := mk_hypermarket {
  url : option str;
  name : str
}.

(** The dictionary [extract_brochure_data] returns. *)
Record Brochure := mk_brochure {
  title : str;
  thumbnail : str;
  shop_name : str;
  valid_from : str;
  valid_to : str;
  parsed_time : str
}.

Definition BASE_URL : str := py "https://www.prospektmaschine.de".
Definition HYPERMARKETS_PATH : str := py "/hypermarkte/".

(** [strftime("%Y-%m-%d %H:%M:%S")], as glibc prints it: two digits for
    every field but the year, which is written without padding (it has
    four digits from the year 1000 on). *)
Definition strftime (t : datetime) : str :=
  str_of_int (year t) ++ [dash] ++ zfill 2 (month t) ++ [dash] ++ zfill 2 (day t)
  ++ [32%N] ++ zfill 2 (hour t) ++ [58%N] ++ zfill 2 (minute t)
  ++ [58%N] ++ zfill 2 (second t).

Section Scraper.
Context {P : Platform}.

(** [urljoin(base, url)] for a base that is not empty, as [BASE_URL] is:
    a reference that is [None] or empty gives the base back, any other is
    resolved, which raises [ValueError] on a malformed one. *)
Definition urljoin (base : str) (url : option str) : M str :=
  match url with
  | Some u =>
      if negb (truthy u) then ret base
      else match urlresolve base u with
           | Some r => ret r
           | None => raise ValueError
           end
  | None => ret base
  end.

Definition get_page_content (url : str) : M (option Node) :=
  logger_info "Nacitavam stranku: %s" [AStr url] ;;
  response <- io (http_get url) ;;
  match response with
  | Some soup => ret (Some soup)
  | None =>
      logger_error "Chyba pri ziskavani stranky %s: %s"
        [AStr url; AExc RequestException] ;;
      ret None
  end.

Definition get_hypermarket_links : M (list Hypermarket) :=
  let hypermarkets := [] in
  page_url <- urljoin BASE_URL (Some HYPERMARKETS_PATH) ;;
  soup <- get_page_content page_url ;;
  match soup with
  | None =>
      logger_error "Nepodarilo sa ziskat zoznam hypermarketov" [] ;;
      ret hypermarkets
  | Some soup =>
      match find (py "ul") (Some (py "list-unstyled categories")) soup with
      | None =>
          logger_error "Nepodarilo sa najst kategorie na stranke" [] ;;
          ret hypermarkets
      | Some categories =>
          let hypermarkets :=
            fold_left
              (fun hypermarkets link =>
                 hypermarkets ++
                 [mk_hypermarket (get (py "href") link) (strip (get_text link))])
              (find_all (py "a") None categories) hypermarkets in
          logger_info "Najdenych %d hypermarketov" [AInt (length hypermarkets)] ;;
          ret hypermarkets
      end
  end.

(** The thumbnail lookup of [extract_brochure_data]; [None] stands for
    its two [return None]. *)
Definition find_thumbnail (brochure : Node) (shop_name : str) : M (option str) :=
  let img_element := find (py "img") (Some (py "lazyloadBrochure")) brochure in
  if match img_element with
     | Some img_element => truthy_opt (get (py "data-src") img_element)
     | None => false
     end
  then
    ret (match img_element with
         | Some img_element => get (py "data-src") img_element
         | None => None
         end)
  else
    match find (py "img") None brochure with
    | None =>
        logger_warning "Chyba thumbnail letaku pre obchod %s" [AStr shop_name] ;;
        ret None
    | Some img_element =>
        let thumbnail :=
          py_or (get (py "src") img_element) (get (py "data-src") img_element) in
        if negb (truthy_opt thumbnail) then
          logger_warning "Chyba URL thumbnailov pre obchod %s" [AStr shop_name] ;;
          ret None
        else ret thumbnail
    end.

(** The lookup of the element with the validity dates. *)
Definition find_date_element (brochure : Node) (shop_name : str) : M (option Node) :=
  match find (py "small") (Some (py "visible-sm")) brochure with
  | Some date_element => ret (Some date_element)
  | None =>
      match find (py "small") (Some (py "hidden-sm")) brochure with
      | Some date_element => ret (Some date_element)
      | None =>
          logger_warning "Chybaju datumy platnosti letaku pre obchod %s"
            [AStr shop_name] ;;
          ret None
      end
  end.

(** The body of the [try] block of [extract_brochure_data]. *)
Definition extract_brochure_body (brochure : Node) (shop_name : str)
  : M (option Brochure) :=
  match find (py "div") (Some (py "grid-item-old")) brochure with
  | Some _ => ret None
  | None =>
  match find (py "strong") None brochure with
  | None =>
      logger_warning "Chyba nadpis letaku pre obchod %s" [AStr shop_name] ;;
      ret None
  | Some title_element =>
  let title := strip (get_text title_element) in
  thumbnail <- find_thumbnail brochure shop_name ;;
  match thumbnail with
  | None => ret None
  | Some thumbnail =>
  thumbnail <-
    (if negb (startswith (py "http://") thumbnail
              || startswith (py "https://") thumbnail)
     then urljoin BASE_URL (Some thumbnail)
     else ret thumbnail) ;;
  date_element <- find_date_element brochure shop_name ;;
  match date_element with
  | None => ret None
  | Some date_element =>
  '(valid_from, valid_to) <- parse_date (strip (get_text date_element)) ;;
  match valid_from, valid_to with
  | Some valid_from, Some valid_to =>
      if negb (truthy valid_from) || negb (truthy valid_to) then ret None
      else
        now <- io clock ;;
        ret (Some {| title := title;
                     thumbnail := thumbnail;
                     shop_name := shop_name;
                     valid_from := valid_from;
                     valid_to := valid_to;
                     parsed_time := strftime now |})
  | _, _ => ret None
  end
  end
  end
  end
  end.

(** The [except Exception as e] clause of [extract_brochure_data]. *)
Definition extract_brochure_except (shop_name : str) (e : exn)
  : M (option Brochure) :=
  logger_error "Chyba pri extrakcii dat letaku pre obchod %s: %s"
    [AStr shop_name; AExc e] ;;
  ret None.

Definition extract_brochure_data (brochure : Node) (shop_name : str)
  : M (option Brochure) :=
  try_except (extract_brochure_body brochure shop_name)
    (extract_brochure_except shop_name).

(** A [for] loop that carries the list it appends to. *)
Fixpoint for_each {A B} (l : list A) (acc : B) (body : B -> A -> M B) : M B :=
  match l with
  | [] => ret acc
  | x :: r => acc' <- body acc x ;; for_each r acc' body
  end.

(** The body of the loop of [get_brochures_for_shop]. *)
Definition collect_brochure (shop_name : str) (brochures : list Brochure)
  (brochure : Node) : M (list Brochure) :=
  brochure_data <- extract_brochure_data brochure shop_name ;;
  match brochure_data with
  | Some brochure_data =>
      logger_info "Extrahovany letakovy data pre %s: %s (%s - %s)"
        [AStr shop_name; AStr (title brochure_data);
         AStr (valid_from brochure_data); AStr (valid_to brochure_data)] ;;
      ret (brochures ++ [brochure_data])
  | None =>
      logger_warning "Nepodarilo sa extrahovat data z letaku pre obchod %s"
        [AStr shop_name] ;;
      ret brochures
  end.

Definition get_brochures_for_shop (shop_url : option str) (shop_name : str)
  : M (list Brochure) :=
  let brochures := [] in
  full_url <- urljoin BASE_URL shop_url ;;
  logger_info "Spracovavam obchod %s, URL: %s" [AStr shop_name; AStr full_url] ;;
  soup <- get_page_content full_url ;;
  match soup with
  | None =>
      logger_error "Nepodarilo sa ziskat stranku obchodu %s" [AStr shop_name] ;;
      ret brochures
  | Some soup =>
      let brochure_elements := find_all (py "div") (Some (py "brochure-thumb")) soup in
      logger_info "Najdenych %d letakov pre obchod %s"
        [AInt (length brochure_elements); AStr shop_name] ;;
      for_each brochure_elements brochures (collect_brochure shop_name)
  end.

(** [enumerate(l)], and the same counting from [i]. *)
Definition enumerate_from {A} (i : nat) (l : list A) : list (nat * A) :=
  combine (seq i (length l)) l.

Definition enumerate {A} (l : list A) : list (nat * A) := enumerate_from 0 l.

(** The pause between two shops: not after the last one. *)
Definition pause (total i : nat) : M unit :=
  if i <? total - 1 then io (fun w => (tt, sleep 1 w)) else ret tt.

(** The body of the loop of [scrape_all_hypermarkets]; [total] is
    [len(hypermarkets)]. *)
Definition scrape_hypermarket (total : nat) (all_brochures : list Brochure)
  (entry : nat * Hypermarket) : M (list Brochure) :=
  let '(i, hypermarket) := entry in
  logger_info "Spracovavam obchod %s (%d/%d)"
    [AStr (name hypermarket); AInt (i + 1); AInt total] ;;
  brochures <- get_brochures_for_shop (url hypermarket) (name hypermarket) ;;
  let all_brochures := all_brochures ++ brochures in
  pause total i ;;
  ret all_brochures.

Definition scrape_all_hypermarkets : M (list Brochure) :=
  let all_brochures := [] in
  hypermarkets <- get_hypermarket_links ;;
  for_each (enumerate hypermarkets) all_brochures
    (scrape_hypermarket (length hypermarkets)).

End Scraper.


(** * Specification *)

Section Specification.
Context {P : Platform}.

(** ** What the patterns match *)

(** A word of the shape a pattern asks for, and what the pattern captures
    in it. *)
Inductive Shape : regex -> str -> list str -> Prop :=
| Shape_nil : Shape [] [] []
| Shape_rep k n u p w gs :
    length u = n -> forallb (in_cls k) u = true -> Shape p w gs ->
    Shape (Rep k n :: p) (u ++ w) gs
| Shape_cap k n u p w gs :
    length u = n -> forallb (in_cls k) u = true -> Shape p w gs ->
    Shape (Cap k n :: p) (u ++ w) (u :: gs).

(** The pattern matches in [s] at offset [i], capturing [gs]. *)
Definition occurs_at (p : regex) (s : str) (i : nat) (gs : list str) : Prop :=
  exists pre w post, s = pre ++ w ++ post /\ length pre = i /\ Shape p w gs.

Definition contains (p : regex) (s : str) : Prop :=
  exists i gs, occurs_at p s i gs.

(** The leftmost match of the pattern in [s] captures [gs]. *)
Definition first_match (p : regex) (s : str) (gs : list str) : Prop :=
  exists i, occurs_at p s i gs /\
            forall j gs', j < i -> ~ occurs_at p s j gs'.

(** Whether a search found a match. *)
Definition found (m : option Match) : bool :=
  match m with Some _ => true | None => false end.

(** [n] decimal digits. *)
Definition digits (n : nat) (u : str) : Prop :=
  length u = n /\ forallb is_digit u = true.

(** ** Dates *)

(** The state after the clock has been read. *)
Definition after_clock (st : St) : St :=
  mk_St (snd (clock (world st))) (logged st).

(** The year [parse_date] falls back on in state [st]. *)
Definition current_year (st : St) : str :=
  str_of_int (year (fst (clock (world st)))).

(** The state after a warning about [date_str]. *)
Definition warned (msg : string) (date_str : str) (st : St) : St :=
  mk_St (world st) (mk_log WARNING msg [AStr date_str] :: logged st).

(** What a date returned by [parse_date] in state [st] looks like: a year,
    a month and a day of digits, joined by dashes. *)
Definition date_shaped (st : St) (s : str) : Prop :=
  exists y m d, s = iso_date y m d /\ digits 2 m /\ digits 2 d
                /\ (digits 4 y \/ y = current_year st).

(** The maximal runs of digits of a text, from left to right; [cur] is the
    run being read, latest digit first. *)
Fixpoint digit_runs (cur : str) (s : str) : list str :=
  match s with
  | [] => match cur with [] => [] | _ => [rev cur] end
  | c :: t =>
      if is_digit c then digit_runs (c :: cur) t
      else match cur with
           | [] => digit_runs [] t
           | _ => rev cur :: digit_runs [] t
           end
  end.

(** The year of the short form as the specification words it: the first
    four-digit number standing alone in the text, else the current year. *)
Definition standalone_year (s : str) : option str :=
  List.find (fun r => length r =? 4) (digit_runs [] s).

Definition specified_year (date_str : str) (st : St) : str :=
  match standalone_year date_str with
  | Some y => y
  | None => current_year st
  end.

(** The value of a string of ASCII digits. *)
Fixpoint number_of (acc : N) (s : str) : option N :=
  match s with
  | [] => Some acc
  | c :: t =>
      if ((48 <=? c) && (c <=? 57))%N then number_of (10 * acc + (c - 48))%N t
      else None
  end.

Definition leap_year (y : N) : bool :=
  ((y mod 4 =? 0) && (negb (y mod 100 =? 0) || (y mod 400 =? 0)))%N.

Definition days_in_month (y m : N) : N :=
  (if (m =? 2) then (if leap_year y then 29 else 28)
   else if (m =? 4) || (m =? 6) || (m =? 9) || (m =? 11) then 30
   else 31)%N.

(** A well-formed calendar date, as the specification asks of
    [valid_from] and [valid_to]: YYYY-MM-DD with the month in 1..12 and
    the day valid for that month and year. *)
Definition well_formed_date (s : str) : bool :=
  match split dash s with
  | [y; m; d] =>
      match number_of 0 y, number_of 0 m, number_of 0 d with
      | Some yv, Some mv, Some dv =>
          (length y =? 4) && (length m =? 2) && (length d =? 2)
          && ((1 <=? mv) && (mv <=? 12) && (1 <=? dv)
              && (dv <=? days_in_month yv mv))%N
      | _, _, _ => false
      end
  | _ => false
  end.

(** The form of [valid_from] and [valid_to] in a record: a year of four
    digits, or the decimal writing of a number, then a month and a day of
    two digits each; no range is checked. *)
Definition date_form (s : str) : Prop :=
  exists y m d, s = iso_date y m d /\ digits 2 m /\ digits 2 d
                /\ (digits 4 y \/ exists n, y = str_of_int n).

(** ** The extractor *)

(** The URL the thumbnail lookup finds: the lazy-load attribute of the
    lazy-load image when it has one, else the source attribute of the first
    image, else its lazy-load attribute. *)
Definition found_thumbnail (brochure : Node) : option str :=
  let fallback :=
    match find (py "img") None brochure with
    | Some img =>
        let u := py_or (get (py "src") img) (get (py "data-src") img) in
        if truthy_opt u then u else None
    | None => None
    end in
  match find (py "img") (Some (py "lazyloadBrochure")) brochure with
  | Some img =>
      if truthy_opt (get (py "data-src") img) then get (py "data-src") img
      else fallback
  | None => fallback
  end.

(** The element with the validity dates: the first marker, else the
    alternate one. *)
Definition found_date_element (brochure : Node) : option Node :=
  match find (py "small") (Some (py "visible-sm")) brochure with
  | Some e => Some e
  | None => find (py "small") (Some (py "hidden-sm")) brochure
  end.

(** Whether a URL is taken as it is. *)
Definition is_http (u : str) : bool :=
  startswith (py "http://") u || startswith (py "https://") u.

(** ** The walks *)

(** The records among the results of the extractor, in order. *)
Definition somes {A} (l : list (option A)) : list A :=
  flat_map (fun o => match o with Some a => [a] | None => [] end) l.

Fixpoint map_m {A B} (f : A -> M B) (l : list A) : M (list B) :=
  match l with
  | [] => ret []
  | x :: r => y <- f x ;; ys <- map_m f r ;; ret (y :: ys)
  end.

(** The extractor on one fragment, with the line the walk logs for it. *)
Definition extract_logged (shop_name : str) (brochure : Node)
  : M (option Brochure) :=
  brochure_data <- extract_brochure_data brochure shop_name ;;
  match brochure_data with
  | Some b =>
      logger_info "Extrahovany letakovy data pre %s: %s (%s - %s)"
        [AStr shop_name; AStr (title b); AStr (valid_from b); AStr (valid_to b)]
  | None =>
      logger_warning "Nepodarilo sa extrahovat data z letaku pre obchod %s"
        [AStr shop_name]
  end ;;
  ret brochure_data.

(** A shop's record sequence: nothing when the page cannot be fetched,
    else the extractor applied to every fragment of the page in document
    order, the accepted ones kept. *)
Definition shop_sequence (shop_url : option str) (shop_name : str)
  : M (list Brochure) :=
  full_url <- urljoin BASE_URL shop_url ;;
  logger_info "Spracovavam obchod %s, URL: %s" [AStr shop_name; AStr full_url] ;;
  soup <- get_page_content full_url ;;
  match soup with
  | None =>
      logger_error "Nepodarilo sa ziskat stranku obchodu %s" [AStr shop_name] ;;
      ret []
  | Some soup =>
      let fragments := find_all (py "div") (Some (py "brochure-thumb")) soup in
      logger_info "Najdenych %d letakov pre obchod %s"
        [AInt (length fragments); AStr shop_name] ;;
      results <- map_m (extract_logged shop_name) fragments ;;
      ret (somes results)
  end.

(** The visit of the [i]-th shop of [total]: its records. *)
Definition visit (total i : nat) (h : Hypermarket) : M (list Brochure) :=
  logger_info "Spracovavam obchod %s (%d/%d)"
    [AStr (name h); AInt (i + 1); AInt total] ;;
  brochures <- get_brochures_for_shop (url h) (name h) ;;
  pause total i ;;
  ret brochures.

(** The shops visited in catalog order: one record sequence per shop. *)
Fixpoint visit_shops (total i : nat) (hs : list Hypermarket)
  : M (list (list Brochure)) :=
  match hs with
  | [] => ret []
  | h :: r =>
      brochures <- visit total i h ;;
      rest <- visit_shops total (S i) r ;;
      ret (brochures :: rest)
  end.

(** The aggregate as the concatenation of the shops' sequences. *)
Definition catalog_run : M (list Brochure) :=
  hypermarkets <- get_hypermarket_links ;;
  sequences <- visit_shops (length hypermarkets) 0 hypermarkets ;;
  ret (concat sequences).

(** The page of shop [h] cannot be fetched in state [st]. *)
Definition fetch_fails (h : Hypermarket) (st : St) : Prop :=
  exists full_url st',
    urljoin BASE_URL (url h) st = (Ok full_url, st') /\
    fst (http_get full_url (world st)) = None.

End Specification.

(** * A sample site

    Three shops A, B and C with two, one and three valid brochures; a
    stale brochure and one without a title sit among them. *)

Definition sample_fragment (title_text thumbnail_url dates : string) : Node :=
  Elem (py "div") [py "brochure-thumb"] []
    [Elem (py "strong") [] [] [Text (py title_text)];
     Elem (py "img") [py "lazyloadBrochure"] [(py "data-src", py thumbnail_url)] [];
     Elem (py "small") [py "visible-sm"] [] [Text (py dates)]].

Definition stale_fragment : Node :=
  Elem (py "div") [py "brochure-thumb"] []
    [Elem (py "div") [py "grid-item-old"] [] [];
     Elem (py "strong") [] [] [Text (py "old")];
     Elem (py "img") [] [(py "src", py "https://img.example/old.jpg")] [];
     Elem (py "small") [py "hidden-sm"] [] [Text (py "01.01.2024 - 07.01.2024")]].

Definition untitled_fragment : Node :=
  Elem (py "div") [py "brochure-thumb"] []
    [Elem (py "img") [] [(py "src", py "https://img.example/x.jpg")] [];
     Elem (py "small") [py "hidden-sm"] [] [Text (py "01.01.2024 - 07.01.2024")]].

Definition sample_brochure (n : string) : Node :=
  sample_fragment n "https://img.example/t.jpg" "01.03.2024 - 15.03.2024".

Definition document (children : list Node) : Node :=
  Elem (py "[document]") [] [] children.

Definition sample_link (href text : string) : Node :=
  Elem (py "li") [] [] [Elem (py "a") [] [(py "href", py href)] [Text (py text)]].

Definition sample_catalog : Node :=
  document
    [Elem (py "ul") [py "list-unstyled"; py "categories"] []
       [sample_link "/a/" " A "; sample_link "/b/" "B"; sample_link "/c/" "C"]].

Definition sample_site : list (str * Node) :=
  [(py "https://www.prospektmaschine.de/hypermarkte/", sample_catalog);
   (py "https://www.prospektmaschine.de/a/",
    document [sample_brochure "a1"; stale_fragment; sample_brochure "a2"]);
   (py "https://www.prospektmaschine.de/b/",
    document [sample_brochure "b1"]);
   (py "https://www.prospektmaschine.de/c/",
    document [sample_brochure "c1"; sample_brochure "c2"; untitled_fragment;
              sample_brochure "c3"])].

Fixpoint page_of (site : list (str * Node)) (u : str) : option Node :=
  match site with
  | [] => None
  | (k, page) :: r => if str_eqb k u then Some page else page_of r u
  end.

(** A platform serving the sample site.  Its world is the current year
    together with the URLs that cannot be fetched. *)
Definition sample_platform : Platform := {|
  World := N * list str;
  unicode_Nd := fun _ => false;
  clock := fun w => (mk_datetime (fst w) 11 3 9 30 0, w);
  http_get := fun u w =>
    (if existsb (str_eqb u) (snd w) then None else page_of sample_site u, w);
  sleep := fun _ w => w;
  urlresolve := fun base u => Some (base ++ u)
|}.

Definition sample_state_in (y : N) (down : list str) : @St sample_platform :=
  @mk_St sample_platform (y, down) [].

Definition sample_state (down : list str) : @St sample_platform :=
  sample_state_in 2026 down.

Definition sample_record (shop n : string) : Brochure :=
  {| title := py n;
     thumbnail := py "https://img.example/t.jpg";
     shop_name := py shop;
     valid_from := py "2024-03-01";
     valid_to := py "2024-03-15";
     parsed_time := py "2026-11-03 09:30:00" |}.

(** The shops the sample catalog lists. *)
Definition sample_shops : list Hypermarket :=
  [mk_hypermarket (Some (py "/a/")) (py "A");
   mk_hypermarket (Some (py "/b/")) (py "B");
   mk_hypermarket (Some (py "/c/")) (py "C")].

(** * Further specification

    What the statements about the rest of the code are written with. *)

Section Further.
Context {P : Platform}.

(** The dictionary [get_hypermarket_links] builds for one link. *)
Definition catalog_entry (link : Node) : Hypermarket :=
  mk_hypermarket (get (py "href") link) (strip (get_text link)).

(** The shops a fetched catalog page lists: the links of the first
    [ul] of class "list-unstyled categories", in document order; nothing
    when the fetch failed or the page has no such list. *)
Definition catalog_entries (page : option Node) : list Hypermarket :=
  match page with
  | None => []
  | Some soup =>
      match find (py "ul") (Some (py "list-unstyled categories")) soup with
      | None => []
      | Some categories => map catalog_entry (find_all (py "a") None categories)
      end
  end.

(** A string that neither begins nor ends with white space. *)
Definition trimmed (s : str) : Prop :=
  (forall c t, s = c :: t -> is_space c = false) /\
  (forall c t, s = t ++ [c] -> is_space c = false).

(** The URL stored for a found URL [u]. *)
Definition resolved (u stored : str) : Prop :=
  if is_http u then stored = u else urlresolve BASE_URL u = Some stored.

(** The thumbnail stored for a found URL [u]; [None] when [urljoin]
    raises. *)
Definition stored_thumbnail (u : str) : option str :=
  if is_http u then Some u else urlresolve BASE_URL u.

(** The state after one more record has been logged. *)
Definition log_to (l : level) (msg : string) (args : list log_arg) (st : St) : St :=
  mk_St (world st) (mk_log l msg args :: logged st).

(** Every run of [c] ends in a state related by [R] to the one it began
    in. *)
Definition moves (R : St -> St -> Prop) {A} (c : M A) : Prop :=
  forall st, R st (snd (c st)).

(** Two states with the same count [mu] of some happening in the world. *)
Definition same_count (mu : World -> nat) (st st' : St) : Prop :=
  mu (world st') = mu (world st).

(** The number of '-' in a text. *)
Definition hyphens (s : str) : nat := count_occ N.eq_dec s dash.

(** How [parse_date], called in state [st], builds the dates [f] and [t]
    from the digits it matches in [date_str]: the day, month and year of
    the leftmost full date of each segment; or, when the two segments do
    not both hold a full date, the day and month of the leftmost short
    date of each and one year for both, the first four digits in a row of
    the text or else the current year. *)
Definition dates_from (st : St) (date_str f t : str) : Prop :=
  exists a b d1 m1 y1 d2 m2 y2,
    split dash (strip date_str) = [a; b] /\
    f = iso_date y1 m1 d1 /\ t = iso_date y2 m2 d2 /\
    ((first_match date_pattern_full (strip a) [d1; m1; y1] /\
      first_match date_pattern_full (strip b) [d2; m2; y2])
     \/ (~ (contains date_pattern_full (strip a)
            /\ contains date_pattern_full (strip b)) /\
         first_match date_pattern_short (strip a) [d1; m1] /\
         first_match date_pattern_short (strip b) [d2; m2] /\
         y2 = y1 /\
         (first_match year_pattern date_str [y1]
          \/ ~ contains year_pattern date_str /\ y1 = current_year st))).






(** Two states in which an observer of the world has seen the same. *)
Definition same_seen {T} (seen : World -> T) (st st' : St) : Prop :=
  seen (world st') = seen (world st).

(** The URL [urljoin] gives for the link of a shop; [None] when it
    raises. *)
Definition joined (u : option str) : option str :=
  match u with
  | Some s => if negb (truthy s) then Some BASE_URL else urlresolve BASE_URL s
  | None => Some BASE_URL
  end.

End Further.

(** The sample site with a second shop whose link [urljoin] cannot
    parse. *)
Definition picky_site : list (str * Node) :=
  [(py "https://www.prospektmaschine.de/hypermarkte/",
    document
      [Elem (py "ul") [py "list-unstyled"; py "categories"] []
         [sample_link "/a/" "A"; sample_link "//[b" "B"; sample_link "/c/" "C"]]);
   (py "https://www.prospektmaschine.de/a/",
    document [sample_brochure "a1"; sample_brochure "a2"]);
   (py "https://www.prospektmaschine.de/c/",
    document [sample_brochure "c1"])].

(** A platform serving it, with a [urljoin] that rejects a reference
    opening an IPv6 host it never closes. *)
Definition picky_platform : Platform := {|
  World := N * list str;
  unicode_Nd := fun _ => false;
  clock := fun w => (mk_datetime (fst w) 11 3 9 30 0, w);
  http_get := fun u w =>
    (if existsb (str_eqb u) (snd w) then None else page_of picky_site u, w);
  sleep := fun _ w => w;
  urlresolve := fun base u =>
    if startswith (py "//[") u then None else Some (base ++ u)
|}.

Definition picky_state : @St picky_platform :=
  @mk_St picky_platform (2026%N, []) [].

(** A brochure whose image reference [urljoin] cannot parse. *)
Definition unparsable_fragment : Node :=
  sample_fragment "a1" "//[img/a1.jpg" "01.03.2024 - 15.03.2024".

(** How many requests and how many calls of [sleep] a world has seen. *)
Record counters := mk_counters { requests : nat; sleeps : nat }.

(** The sample platform with a world that counts them. *)
Definition counting_platform : Platform := {|
  World := (N * list str) * counters;
  unicode_Nd := fun _ => false;
  clock := fun w => (mk_datetime (fst (fst w)) 11 3 9 30 0, w);
  http_get := fun u w =>
    (if existsb (str_eqb u) (snd (fst w)) then None else page_of sample_site u,
     (fst w, mk_counters (S (requests (snd w))) (sleeps (snd w))));
  sleep := fun _ w => (fst w, mk_counters (requests (snd w)) (S (sleeps (snd w))));
  urlresolve := fun base u => Some (base ++ u)
|}.

Definition counting_state (down : list str) : @St counting_platform :=
  @mk_St counting_platform ((2026%N, down), mk_counters 0 0) [].


(** What an observer of the world can see of a run: the requests and the
    pauses, in the order they happen. *)
Inductive happening :=
| Requested (u : str)
| Slept (seconds : N).

(** The visits of shops with the pages [urls], as an observer sees them: a
    request for each page in turn and a pause of one second between two
    requests, none before the first and none after the last. *)
Fixpoint visits_seen (urls : list str) : list happening :=
  match urls with
  | [] => []
  | u :: rest =>
      match rest with
      | [] => [Requested u]
      | _ :: _ => Requested u :: Slept 1 :: visits_seen rest
      end
  end.

(** The sample platform with a world that keeps what happened, the
    latest last. *)
Definition tracing_platform : Platform := {|
  World := (N * list str) * list happening;
  unicode_Nd := fun _ => false;
  clock := fun w => (mk_datetime (fst (fst w)) 11 3 9 30 0, w);
  http_get := fun u w =>
    (if existsb (str_eqb u) (snd (fst w)) then None else page_of sample_site u,
     (fst w, snd w ++ [Requested u]));
  sleep := fun n w => (fst w, snd w ++ [Slept n]);
  urlresolve := fun base u => Some (base ++ u)
|}.

Definition tracing_state (down : list str) : @St tracing_platform :=
  @mk_St tracing_platform ((2026%N, down), []) [].


(** * Proofs *)

(** ** Regular expressions: the search finds the leftmost match *)

Section RegexFacts.
Context {P : Platform}.

Lemma take_cls_sound k n s u r :
  take_cls k n s = Some (u, r) ->
  s = u ++ r /\ length u = n /\ forallb (in_cls k) u = true.
Proof.
  revert s u r; induction n as [|n IH]; intros s u r H; simpl in H.
  - inversion H; subst; auto.
  - destruct s as [|c t]; [discriminate|].
    destruct (in_cls k c) eqn:Hc; [|discriminate].
    destruct (take_cls k n t) as [[u' r']|] eqn:Ht; [|discriminate].
    inversion H; subst; clear H.
    destruct (IH _ _ _ Ht) as (-> & Hl & Hf).
    simpl; rewrite Hc, Hf, Hl; auto.
Qed.

Lemma take_cls_complete k u r :
  forallb (in_cls k) u = true ->
  take_cls k (length u) (u ++ r) = Some (u, r).
Proof.
  induction u as [|c u IH]; simpl; intros H; [reflexivity|].
  apply andb_true_iff in H as [Hc Hu].
  now rewrite Hc, (IH Hu).
Qed.

Lemma match_here_sound p s gs r :
  match_here p s = Some (gs, r) -> exists w, s = w ++ r /\ Shape p w gs.
Proof.
  revert s gs r; induction p as [|[k n|k n] p IH]; intros s gs r H; simpl in H.
  - inversion H; subst. exists []; split; [reflexivity|constructor].
  - destruct (take_cls k n s) as [[u r1]|] eqn:Ht; [|discriminate].
    apply take_cls_sound in Ht as (-> & Hl & Hf).
    destruct (IH _ _ _ H) as (w & -> & Hw).
    exists (u ++ w); split; [now rewrite app_assoc|now constructor].
  - destruct (take_cls k n s) as [[u r1]|] eqn:Ht; [|discriminate].
    apply take_cls_sound in Ht as (-> & Hl & Hf).
    destruct (match_here p r1) as [[gs1 r2]|] eqn:Hm; [|discriminate].
    inversion H; subst; clear H.
    destruct (IH _ _ _ Hm) as (w & -> & Hw).
    exists (u ++ w); split; [now rewrite app_assoc|now constructor].
Qed.

Lemma match_here_complete p w gs r :
  Shape p w gs -> match_here p (w ++ r) = Some (gs, r).
Proof.
  induction 1 as [|k n u p w gs Hl Hf Hs IH|k n u p w gs Hl Hf Hs IH]; simpl.
  - reflexivity.
  - subst n. rewrite <- app_assoc, take_cls_complete by assumption. exact IH.
  - subst n. rewrite <- app_assoc, take_cls_complete by assumption.
    now rewrite IH.
Qed.

Lemma search_from_sound p s i m :
  search_from i p s = Some m ->
  exists pre w post, s = pre ++ w ++ post /\ m_start m = i + length pre
                     /\ Shape p w (groups m)
                     /\ forall pre' r, s = pre' ++ r -> length pre' < length pre ->
                                       match_here p r = None.
Proof.
  revert i; induction s as [|c t IH]; intros i H; simpl in H.
  - destruct (match_here p []) as [[gs r]|] eqn:Hm; [|discriminate].
    inversion H; subst; clear H. apply match_here_sound in Hm as (w & Hw & Hs).
    exists [], w, r; simpl; repeat split; auto. intros; simpl in *; lia.
  - destruct (match_here p (c :: t)) as [[gs r]|] eqn:Hm.
    + inversion H; subst; clear H. apply match_here_sound in Hm as (w & Hw & Hs).
      exists [], w, r; simpl; repeat split; auto. intros; simpl in *; lia.
    + destruct (IH _ H) as (pre & w & post & -> & Hst & Hs & Hmin).
      exists (c :: pre), w, post; simpl; repeat split; auto; [lia|].
      intros pre' r Heq Hlt. destruct pre' as [|c' pre'].
      * simpl in Heq; subst r; exact Hm.
      * simpl in Heq; inversion Heq; subst. eapply Hmin; eauto. simpl in Hlt; lia.
Qed.

Lemma search_from_complete p pre w post gs i :
  Shape p w gs -> exists m, search_from i p (pre ++ w ++ post) = Some m.
Proof.
  intros Hs; revert i; induction pre as [|c pre IH]; intros i.
  - simpl. destruct (w ++ post) eqn:E; simpl;
      rewrite <- E, (match_here_complete _ _ _ post Hs); eauto.
  - simpl. destruct (match_here p (c :: pre ++ w ++ post)) as [[g r]|]; eauto.
Qed.

Lemma occurs_at_match_here p s i gs :
  occurs_at p s i gs <->
  exists pre r rest, s = pre ++ r /\ length pre = i /\ match_here p r = Some (gs, rest).
Proof.
  split.
  - intros (pre & w & post & -> & Hl & Hs).
    exists pre, (w ++ post), post; repeat split; auto using match_here_complete.
  - intros (pre & r & rest & -> & Hl & Hm).
    apply match_here_sound in Hm as (w & -> & Hs). now exists pre, w, rest.
Qed.

Lemma re_search_first p s m :
  re_search p s = Some m -> first_match p s (groups m).
Proof.
  intros H; apply search_from_sound in H as (pre & w & post & -> & Hst & Hs & Hmin).
  exists (length pre); split; [now exists pre, w, post|].
  intros j gs' Hj Ho. apply occurs_at_match_here in Ho as (pre' & r & rest & Heq & Hl & Hm).
  rewrite (Hmin pre' r Heq) in Hm; [discriminate|lia].
Qed.

Lemma re_search_contains p s :
  contains p s -> exists m, re_search p s = Some m.
Proof.
  intros (i & gs & pre & w & post & -> & _ & Hs).
  now apply search_from_complete with (gs := gs).
Qed.

Lemma re_search_none p s :
  re_search p s = None -> ~ contains p s.
Proof.
  intros H Hc. apply re_search_contains in Hc as (m & Hm). congruence.
Qed.

Lemma first_match_contains p s gs : first_match p s gs -> contains p s.
Proof. intros (i & H & _). now exists i, gs. Qed.

(** The leftmost match is unique: the groups are determined. *)
Lemma first_match_unique p s gs gs' :
  first_match p s gs -> first_match p s gs' -> gs = gs'.
Proof.
  intros (i & Hi & Hmin) (j & Hj & Hmin').
  assert (i = j) as ->.
  { destruct (Nat.lt_trichotomy i j) as [Hlt|[->|Hlt]]; auto.
    - now apply Hmin' in Hi.
    - now apply Hmin in Hj. }
  apply occurs_at_match_here in Hi as (pre & r & rest & -> & Hl & Hm).
  apply occurs_at_match_here in Hj as (pre' & r' & rest' & Heq & Hl' & Hm').
  assert (pre = pre' /\ r = r') as [-> ->].
  { clear Hm Hm' Hmin Hmin'. revert pre' j Hl Hl' Heq.
    induction pre as [|c pre IH]; intros [|c' pre'] j Hl Hl' Heq; simpl in *; subst;
      try discriminate; auto.
    inversion Heq; subst. inversion Hl'. destruct (IH pre' _ eq_refl H0 H1) as [-> ->]; auto. }
  congruence.
Qed.

Lemma re_search_spec p s gs :
  first_match p s gs <-> exists m, re_search p s = Some m /\ groups m = gs.
Proof.
  split.
  - intros H. destruct (re_search_contains _ _ (first_match_contains _ _ _ H)) as (m & Hm).
    exists m; split; auto. eapply first_match_unique; eauto using re_search_first.
  - intros (m & Hm & <-). now apply re_search_first.
Qed.
End RegexFacts.

(** ** The three patterns, and strings *)

Section PatternFacts.
Context {P : Platform}.

Lemma lit1 c u :
  length u = 1 -> forallb (in_cls (Lit c)) u = true -> u = [c].
Proof.
  destruct u as [|x [|y u]]; simpl; try discriminate; intros _ H.
  apply andb_true_iff in H as [H _]. apply N.eqb_eq in H. now subst.
Qed.

Lemma shape_full w gs :
  Shape date_pattern_full w gs <->
  exists d m y, gs = [d; m; y] /\ w = d ++ [dot] ++ m ++ [dot] ++ y
                /\ digits 2 d /\ digits 2 m /\ digits 4 y.
Proof.
  unfold date_pattern_full, digits; split.
  - intros H.
    repeat match goal with
           | H : Shape (_ :: _) _ _ |- _ => inversion H; subst; clear H
           | H : Shape [] _ _ |- _ => inversion H; subst; clear H
           | H : length ?u = 1, H' : forallb (in_cls (Lit _)) ?u = true |- _ =>
               apply lit1 in H'; [subst u | exact H]
           end.
    do 3 eexists; repeat split; eauto. now rewrite app_nil_r.
  - intros (d & m & y & -> & -> & (Hd & Hd') & (Hm & Hm') & (Hy & Hy')).
    replace y with (y ++ []) at 1 by apply app_nil_r.
    repeat (constructor; auto).
Qed.

Lemma shape_short w gs :
  Shape date_pattern_short w gs <->
  exists d m, gs = [d; m] /\ w = d ++ [dot] ++ m ++ [dot]
              /\ digits 2 d /\ digits 2 m.
Proof.
  unfold date_pattern_short, digits; split.
  - intros H.
    repeat match goal with
           | H : Shape (_ :: _) _ _ |- _ => inversion H; subst; clear H
           | H : Shape [] _ _ |- _ => inversion H; subst; clear H
           | H : length ?u = 1, H' : forallb (in_cls (Lit _)) ?u = true |- _ =>
               apply lit1 in H'; [subst u | exact H]
           end.
    do 2 eexists; repeat split; eauto.
  - intros (d & m & -> & -> & (Hd & Hd') & (Hm & Hm')).
    change (d ++ [dot] ++ m ++ [dot]) with (d ++ [dot] ++ m ++ [dot] ++ []).
    repeat (constructor; auto).
Qed.

Lemma shape_year w gs :
  Shape year_pattern w gs <-> exists y, gs = [y] /\ w = y /\ digits 4 y.
Proof.
  unfold year_pattern, digits; split.
  - intros H.
    repeat match goal with
           | H : Shape (_ :: _) _ _ |- _ => inversion H; subst; clear H
           | H : Shape [] _ _ |- _ => inversion H; subst; clear H
           end.
    eexists; repeat split; eauto. now rewrite app_nil_r.
  - intros (y & -> & -> & (Hy & Hy')).
    replace y with (y ++ []) at 1 by apply app_nil_r.
    repeat (constructor; auto).
Qed.

(** A text contains a full date when it reads: two digits, a dot, two
    digits, a dot, four digits, somewhere. *)
Lemma contains_full_iff s :
  contains date_pattern_full s <->
  exists pre d m y post,
    s = pre ++ d ++ [dot] ++ m ++ [dot] ++ y ++ post
    /\ digits 2 d /\ digits 2 m /\ digits 4 y.
Proof.
  split.
  - intros (i & gs & pre & w & post & -> & _ & Hs).
    apply shape_full in Hs as (d & m & y & _ & -> & H).
    exists pre, d, m, y, post. split; [|exact H].
    now rewrite <- !app_assoc.
  - intros (pre & d & m & y & post & -> & H).
    exists (length pre), [d; m; y], pre, (d ++ [dot] ++ m ++ [dot] ++ y), post.
    split; [now rewrite <- !app_assoc|]. split; [reflexivity|].
    apply shape_full. now exists d, m, y.
Qed.

(** A short date: two digits, a dot, two digits, a dot. *)
Lemma contains_short_iff s :
  contains date_pattern_short s <->
  exists pre d m post,
    s = pre ++ d ++ [dot] ++ m ++ [dot] ++ post /\ digits 2 d /\ digits 2 m.
Proof.
  split.
  - intros (i & gs & pre & w & post & -> & _ & Hs).
    apply shape_short in Hs as (d & m & _ & -> & H).
    exists pre, d, m, post. split; [|exact H].
    now rewrite <- !app_assoc.
  - intros (pre & d & m & post & -> & H).
    exists (length pre), [d; m], pre, (d ++ [dot] ++ m ++ [dot]), post.
    split; [now rewrite <- !app_assoc|]. split; [reflexivity|].
    apply shape_short. now exists d, m.
Qed.

(** Four digits in a row, wherever they stand. *)
Lemma contains_year_iff s :
  contains year_pattern s <->
  exists pre y post, s = pre ++ y ++ post /\ digits 4 y.
Proof.
  split.
  - intros (i & gs & pre & w & post & -> & _ & Hs).
    apply shape_year in Hs as (y & _ & -> & H). now exists pre, y, post.
  - intros (pre & y & post & -> & H).
    exists (length pre), [y], pre, y, post.
    split; [reflexivity|]. split; [reflexivity|].
    apply shape_year. now exists y.
Qed.

Lemma first_full_groups s gs :
  first_match date_pattern_full s gs -> exists d m y, gs = [d; m; y].
Proof.
  intros (i & (pre & w & post & _ & _ & Hs) & _).
  apply shape_full in Hs as (d & m & y & -> & _). eauto.
Qed.

Lemma first_short_groups s gs :
  first_match date_pattern_short s gs -> exists d m, gs = [d; m].
Proof.
  intros (i & (pre & w & post & _ & _ & Hs) & _).
  apply shape_short in Hs as (d & m & -> & _). eauto.
Qed.

Lemma first_year_groups s gs :
  first_match year_pattern s gs -> exists y, gs = [y].
Proof.
  intros (i & (pre & w & post & _ & _ & Hs) & _).
  apply shape_year in Hs as (y & -> & _). eauto.
Qed.

(** A text with a full date has a short date, and four digits in a row. *)
Lemma contains_full_short s :
  contains date_pattern_full s -> contains date_pattern_short s.
Proof.
  intros (i & gs & pre & w & post & -> & Hl & Hs).
  apply shape_full in Hs as (d & m & y & -> & -> & Hd & Hm & Hy).
  exists i, [d; m], pre, (d ++ [dot] ++ m ++ [dot]), (y ++ post).
  repeat split; auto.
  - now rewrite <- !app_assoc.
  - apply shape_short. now exists d, m.
Qed.

Lemma contains_full_year s :
  contains date_pattern_full s -> contains year_pattern s.
Proof.
  intros (i & gs & pre & w & post & -> & Hl & Hs).
  apply shape_full in Hs as (d & m & y & -> & -> & Hd & Hm & Hy).
  exists (length (pre ++ d ++ [dot] ++ m ++ [dot])), [y],
    (pre ++ d ++ [dot] ++ m ++ [dot]), y, post.
  repeat split; auto.
  - now rewrite <- !app_assoc.
  - apply shape_year. now exists y.
Qed.

Lemma contains_infix p u pre post :
  contains p u -> contains p (pre ++ u ++ post).
Proof.
  intros (i & gs & pre' & w & post' & -> & Hl & Hs).
  exists (length (pre ++ pre')), gs, (pre ++ pre'), w, (post' ++ post).
  repeat split; auto. now rewrite <- !app_assoc.
Qed.

Lemma first_match_exists p s : contains p s -> exists gs, first_match p s gs.
Proof.
  intros H. apply re_search_contains in H as (m & Hm).
  exists (groups m). now apply re_search_first.
Qed.
End PatternFacts.

Section StringFacts.
Lemma lstrip_suffix s : exists pre, s = pre ++ lstrip s.
Proof.
  induction s as [|c t [pre IH]]; simpl.
  - now exists [].
  - destruct (is_space c).
    + exists (c :: pre). simpl. now f_equal.
    + now exists [].
Qed.

Lemma rstrip_prefix s : exists post, s = rstrip s ++ post.
Proof.
  unfold rstrip. destruct (lstrip_suffix (rev s)) as [pre H].
  exists (rev pre). rewrite <- rev_app_distr, <- H. now rewrite rev_involutive.
Qed.

Lemma strip_infix s : exists pre post, s = pre ++ strip s ++ post.
Proof.
  unfold strip. destruct (lstrip_suffix s) as [pre H].
  destruct (rstrip_prefix (lstrip s)) as [post H'].
  exists pre, post. now rewrite <- H', <- H.
Qed.

Lemma split_nonempty sep s : split sep s <> [].
Proof.
  induction s as [|c t IH]; simpl; [discriminate|].
  destruct (c =? sep)%N; [discriminate|].
  destruct (split sep t); [contradiction|discriminate].
Qed.

Lemma split_one sep s b : split sep s = [b] -> s = b.
Proof.
  revert b; induction s as [|c t IH]; intros b H; simpl in H.
  - now inversion H.
  - destruct (c =? sep)%N.
    + inversion H. now apply split_nonempty in H2.
    + destruct (split sep t) as [|h r] eqn:Et; [now apply split_nonempty in Et|].
      inversion H; subst. f_equal. now apply IH.
Qed.

Lemma split_two sep s a b :
  split sep s = [a; b] -> s = a ++ sep :: b.
Proof.
  revert a; induction s as [|c t IH]; intros a H; simpl in H; [discriminate|].
  destruct (c =? sep)%N eqn:E.
  - apply N.eqb_eq in E; subst c. inversion H; subst; clear H. simpl. f_equal.
    now apply split_one in H2.
  - destruct (split sep t) as [|h r] eqn:Et; [now apply split_nonempty in Et|].
    inversion H; subst; clear H. simpl. f_equal. now apply IH.
Qed.

Lemma strip_empty_iff s : strip s = [] <-> forallb is_space s = true.
Proof.
  assert (L : forall s, lstrip s = [] <-> forallb is_space s = true).
  { induction s0 as [|c t IH]; simpl; [tauto|].
    destruct (is_space c); simpl; [exact IH|]. split; discriminate. }
  unfold strip, rstrip. split.
  - intros H. apply (f_equal (@rev char)) in H. rewrite rev_involutive in H.
    simpl in H. apply L in H. rewrite forallb_forall in H.
    destruct (lstrip_suffix s) as [pre Hpre].
    destruct (lstrip s) as [|c t] eqn:E; [now apply L|].
    exfalso. assert (Hc : is_space c = true) by (apply H, in_rev; rewrite rev_involutive; now left).
    clear - E Hc. induction s as [|x s IH]; simpl in E; [discriminate|].
    destruct (is_space x) eqn:Ex; auto. inversion E; subst. congruence.
  - intros H. apply L in H. now rewrite H.
Qed.
End StringFacts.

(** ** [parse_date] *)

Section ParseDateFacts.
Context {P : Platform}.

Ltac two_parts H :=
  unfold parse_date, try_except, parse_date_body;
  rewrite H; cbn [length Nat.eqb negb nth].

Lemma io_clock st :
  io clock st = (Ok (fst (clock (world st))), after_clock st).
Proof. unfold io, after_clock. now destruct (clock (world st)). Qed.

Lemma parse_date_full_path date_str a b d1 m1 y1 d2 m2 y2 st :
  split dash (strip date_str) = [a; b] ->
  first_match date_pattern_full (strip a) [d1; m1; y1] ->
  first_match date_pattern_full (strip b) [d2; m2; y2] ->
  parse_date date_str st =
  (Ok (Some (iso_date y1 m1 d1), Some (iso_date y2 m2 d2)), st).
Proof.
  intros H Ha Hb.
  apply re_search_spec in Ha as (ma & Ha & Ga), Hb as (mb & Hb & Gb).
  two_parts H. rewrite Ha, Hb. unfold bind. rewrite Ga, Gb. reflexivity.
Qed.

Lemma parse_date_short_path date_str a b d1 m1 d2 m2 st :
  split dash (strip date_str) = [a; b] ->
  ~ (contains date_pattern_full (strip a) /\ contains date_pattern_full (strip b)) ->
  first_match date_pattern_short (strip a) [d1; m1] ->
  first_match date_pattern_short (strip b) [d2; m2] ->
  exists y,
    parse_date date_str st =
    (Ok (Some (iso_date y m1 d1), Some (iso_date y m2 d2)), after_clock st)
    /\ (first_match year_pattern date_str [y]
        \/ ~ contains year_pattern date_str /\ y = current_year st).
Proof.
  intros H Hn Ha Hb.
  apply re_search_spec in Ha as (ma & Ha & Ga), Hb as (mb & Hb & Gb).
  assert (Hy : exists y,
             (year <- match re_search year_pattern date_str with
                      | Some year_match => group1 year_match
                      | None => ret (current_year st)
                      end ;;
              ret (Some (iso_date year m1 d1), Some (iso_date year m2 d2)))
               (after_clock st)
             = (Ok (Some (iso_date y m1 d1), Some (iso_date y m2 d2)), after_clock st)
             /\ (first_match year_pattern date_str [y]
                 \/ ~ contains year_pattern date_str /\ y = current_year st)).
  { destruct (re_search year_pattern date_str) as [my|] eqn:Hy.
    - pose proof (re_search_first _ _ _ Hy) as Hf.
      destruct (first_year_groups _ _ Hf) as (y & Gy). rewrite Gy in Hf.
      exists y; split; [|now left].
      unfold bind, group1. now rewrite Gy.
    - exists (current_year st); split; [reflexivity|].
      right; split; [now apply re_search_none|reflexivity]. }
  destruct Hy as (y & Hrun & Hy). exists y; split; [|exact Hy].
  two_parts H.
  assert (Hfull : match re_search date_pattern_full (strip a),
                        re_search date_pattern_full (strip b) with
                  | Some _, Some _ => False
                  | _, _ => True
                  end).
  { destruct (re_search date_pattern_full (strip a)) as [mf|] eqn:Fa; auto.
    destruct (re_search date_pattern_full (strip b)) as [mt|] eqn:Fb; auto.
    apply Hn; split; eapply first_match_contains, re_search_first; eauto. }
  unfold bind at 1.
  destruct (re_search date_pattern_full (strip a)) as [mf|];
    [destruct (re_search date_pattern_full (strip b)) as [mt|]; [contradiction|]|];
    rewrite Ha, Hb; unfold bind at 1; rewrite Ga; cbn [unpack2 ret];
    unfold bind at 1; rewrite Gb; cbn [unpack2 ret];
    unfold bind at 1; rewrite io_clock; fold (current_year st);
    rewrite Hrun; reflexivity.
Qed.

Lemma parse_date_wrong_count date_str st :
  length (split dash (strip date_str)) <> 2 ->
  parse_date date_str st =
  (Ok (None, None), warned "Neocakavany format datumu: %s" date_str st).
Proof.
  intros H. unfold parse_date, try_except, parse_date_body.
  apply Nat.eqb_neq in H. rewrite H. reflexivity.
Qed.

Lemma parse_date_no_match date_str a b st :
  split dash (strip date_str) = [a; b] ->
  ~ (contains date_pattern_full (strip a) /\ contains date_pattern_full (strip b)) ->
  ~ (contains date_pattern_short (strip a) /\ contains date_pattern_short (strip b)) ->
  parse_date date_str st =
  (Ok (None, None), warned "Nepodarilo sa extrahovat datumy z: %s" date_str st).
Proof.
  intros H Hf Hs. two_parts H.
  assert (Hfull : match re_search date_pattern_full (strip a),
                        re_search date_pattern_full (strip b) with
                  | Some _, Some _ => False
                  | _, _ => True
                  end).
  { destruct (re_search date_pattern_full (strip a)) as [mf|] eqn:Fa; auto.
    destruct (re_search date_pattern_full (strip b)) as [mt|] eqn:Fb; auto.
    apply Hf; split; eapply first_match_contains, re_search_first; eauto. }
  assert (Hshort : match re_search date_pattern_short (strip a),
                         re_search date_pattern_short (strip b) with
                   | Some _, Some _ => False
                   | _, _ => True
                   end).
  { destruct (re_search date_pattern_short (strip a)) as [mf|] eqn:Fa; auto.
    destruct (re_search date_pattern_short (strip b)) as [mt|] eqn:Fb; auto.
    apply Hs; split; eapply first_match_contains, re_search_first; eauto. }
  destruct (re_search date_pattern_full (strip a)) as [mf|];
    [destruct (re_search date_pattern_full (strip b)) as [mt|]; [contradiction|]|];
    (destruct (re_search date_pattern_short (strip a)) as [sf|];
     [destruct (re_search date_pattern_short (strip b)) as [sb|]; [contradiction|]|]);
    reflexivity.
Qed.

Lemma length_two {A} (l : list A) : length l = 2 -> exists a b, l = [a; b].
Proof. destruct l as [|a [|b [|c l]]]; try discriminate. eauto. Qed.

Lemma contains_dec p s : contains p s \/ ~ contains p s.
Proof.
  destruct (re_search p s) as [m|] eqn:H.
  - left. eapply first_match_contains, re_search_first; eauto.
  - right. now apply re_search_none.
Qed.

Lemma first_full_digits s d m y :
  first_match date_pattern_full s [d; m; y] ->
  digits 2 d /\ digits 2 m /\ digits 4 y.
Proof.
  intros (i & (pre & w & post & _ & _ & Hs) & _).
  apply shape_full in Hs as (d' & m' & y' & E & _ & H). now inversion E; subst.
Qed.

Lemma first_short_digits s d m :
  first_match date_pattern_short s [d; m] -> digits 2 d /\ digits 2 m.
Proof.
  intros (i & (pre & w & post & _ & _ & Hs) & _).
  apply shape_short in Hs as (d' & m' & E & _ & H). now inversion E; subst.
Qed.

Lemma first_year_digits s y :
  first_match year_pattern s [y] -> digits 4 y.
Proof.
  intros (i & (pre & w & post & _ & _ & Hs) & _).
  apply shape_year in Hs as (y' & E & _ & H). now inversion E; subst.
Qed.

Lemma short_or_none date_str a b st :
  split dash (strip date_str) = [a; b] ->
  ~ (contains date_pattern_full (strip a) /\ contains date_pattern_full (strip b)) ->
  (exists st', parse_date date_str st = (Ok (None, None), st')
               /\ world st' = world st)
  \/ (exists f t, parse_date date_str st = (Ok (Some f, Some t), st)
                  /\ date_shaped st f /\ date_shaped st t)
  \/ (exists f t, parse_date date_str st = (Ok (Some f, Some t), after_clock st)
                  /\ date_shaped st f /\ date_shaped st t).
Proof.
  intros E Hn.
  destruct (contains_dec date_pattern_short (strip a)) as [Sa|Sa];
    [destruct (contains_dec date_pattern_short (strip b)) as [Sb|Sb]|].
  - right; right.
    apply first_match_exists in Sa as (ga & Sa), Sb as (gb & Sb).
    destruct (first_short_groups _ _ Sa) as (d1 & m1 & ->).
    destruct (first_short_groups _ _ Sb) as (d2 & m2 & ->).
    destruct (first_short_digits _ _ _ Sa) as (? & ?).
    destruct (first_short_digits _ _ _ Sb) as (? & ?).
    destruct (parse_date_short_path _ _ _ _ _ _ _ st E Hn Sa Sb) as (y & Hrun & Hy).
    assert (digits 4 y \/ y = current_year st) as Hy'.
    { destruct Hy as [Hy|[_ Hy]]; [left; now apply first_year_digits in Hy|now right]. }
    do 2 eexists; split; [exact Hrun|].
    split; do 3 eexists; eauto.
  - left. eexists; split; [apply (parse_date_no_match _ _ _ st E Hn); tauto|reflexivity].
  - left. eexists; split; [apply (parse_date_no_match _ _ _ st E Hn); tauto|reflexivity].
Qed.

(** The three ways [parse_date] ends. *)
Lemma parse_date_cases date_str st :
  (exists st', parse_date date_str st = (Ok (None, None), st')
               /\ world st' = world st)
  \/ (exists f t, parse_date date_str st = (Ok (Some f, Some t), st)
                  /\ date_shaped st f /\ date_shaped st t)
  \/ (exists f t, parse_date date_str st = (Ok (Some f, Some t), after_clock st)
                  /\ date_shaped st f /\ date_shaped st t).
Proof.
  destruct (Nat.eq_dec (length (split dash (strip date_str))) 2) as [E|E].
  2:{ left. eexists; split; [now apply parse_date_wrong_count|reflexivity]. }
  apply length_two in E as (a & b & E).
  destruct (contains_dec date_pattern_full (strip a)) as [Fa|Fa];
    [destruct (contains_dec date_pattern_full (strip b)) as [Fb|Fb]|].
  - right; left.
    apply first_match_exists in Fa as (ga & Fa), Fb as (gb & Fb).
    destruct (first_full_groups _ _ Fa) as (d1 & m1 & y1 & ->).
    destruct (first_full_groups _ _ Fb) as (d2 & m2 & y2 & ->).
    destruct (first_full_digits _ _ _ _ Fa) as (? & ? & ?).
    destruct (first_full_digits _ _ _ _ Fb) as (? & ? & ?).
    do 2 eexists; split; [eapply parse_date_full_path; eauto|].
    split; do 3 eexists; eauto.
  - apply (short_or_none _ a b); tauto.
  - apply (short_or_none _ a b); tauto.
Qed.
End ParseDateFacts.

Section ParseDateClaims.
Context {P : Platform}.

(** Whether a text contains a match can be computed. *)
Lemma contains_search p s :
  contains p s <-> found (re_search p s) = true.
Proof.
  unfold found. destruct (re_search p s) as [m|] eqn:H; split; auto.
  - intros _. eapply first_match_contains, re_search_first; eauto.
  - intros Hc. apply re_search_none in H. contradiction.
  - discriminate.
Qed.

Lemma not_contains_search p s :
  ~ contains p s <-> found (re_search p s) = false.
Proof.
  rewrite contains_search. unfold found. destruct (re_search p s); split; congruence.
Qed.

(** The leftmost match, computed. *)
Lemma first_match_search p s m :
  re_search p s = Some m -> first_match p s (groups m).
Proof. apply re_search_first. Qed.

(** A match in a stripped segment is a match in the whole text. *)
Lemma contains_segment_left p date_str a b :
  split dash (strip date_str) = [a; b] ->
  contains p (strip a) -> contains p date_str.
Proof.
  intros H Hc. apply split_two in H.
  destruct (strip_infix date_str) as (pre & post & E).
  destruct (strip_infix a) as (pre' & post' & E').
  rewrite E, H, E'.
  replace (pre ++ ((pre' ++ strip a ++ post') ++ dash :: b) ++ post)
    with ((pre ++ pre') ++ strip a ++ (post' ++ dash :: b ++ post)).
  - now apply contains_infix.
  - rewrite <- ?app_assoc. simpl. now rewrite <- ?app_assoc.
Qed.

Lemma contains_segment_right p date_str a b :
  split dash (strip date_str) = [a; b] ->
  contains p (strip b) -> contains p date_str.
Proof.
  intros H Hc. apply split_two in H.
  destruct (strip_infix date_str) as (pre & post & E).
  destruct (strip_infix b) as (pre' & post' & E').
  rewrite E, H, E'.
  replace (pre ++ (a ++ dash :: pre' ++ strip b ++ post') ++ post)
    with ((pre ++ a ++ dash :: pre') ++ strip b ++ (post' ++ post)).
  - now apply contains_infix.
  - rewrite <- ?app_assoc. simpl. now rewrite <- ?app_assoc.
Qed.

(** C1: when the split on '-' gives two segments and each of them,
    stripped as the code strips it, contains a full date, [parse_date]
    returns the two dates as YYYY-MM-DD, each built from the day, month and
    year of the leftmost full date of its own segment; the state is left as
    it was. *)
Theorem parse_date_full_form (date_str a b : str) (st : St) :
  split dash (strip date_str) = [a; b] ->
  contains date_pattern_full (strip a) ->
  contains date_pattern_full (strip b) ->
  exists d1 m1 y1 d2 m2 y2,
    first_match date_pattern_full (strip a) [d1; m1; y1] /\
    first_match date_pattern_full (strip b) [d2; m2; y2] /\
    parse_date date_str st =
    (Ok (Some (iso_date y1 m1 d1), Some (iso_date y2 m2 d2)), st).
Proof.
  intros H Fa Fb.
  apply first_match_exists in Fa as (ga & Fa), Fb as (gb & Fb).
  destruct (first_full_groups _ _ Fa) as (d1 & m1 & y1 & ->).
  destruct (first_full_groups _ _ Fb) as (d2 & m2 & y2 & ->).
  exists d1, m1, y1, d2, m2, y2. repeat split; auto.
  eapply parse_date_full_path; eauto.
Qed.

(** The example of the specification, on every platform. *)
Example parse_date_full_example (st : St) :
  parse_date (py "01.03.2024 - 15.03.2024") st =
  (Ok (Some (py "2024-03-01"), Some (py "2024-03-15")), st).
Proof. reflexivity. Qed.

(** C2, as amended: when one segment contains a full date and the other
    only a short one, [parse_date] succeeds on the short path: both dates
    carry the first four digits in a row of the whole text as their year,
    with the day and month of the leftmost short match of each segment. *)
Theorem parse_date_mixed_forms (date_str a b : str) (st : St) :
  split dash (strip date_str) = [a; b] ->
  (contains date_pattern_full (strip a) /\
   ~ contains date_pattern_full (strip b) /\
   contains date_pattern_short (strip b))
  \/ (~ contains date_pattern_full (strip a) /\
      contains date_pattern_short (strip a) /\
      contains date_pattern_full (strip b)) ->
  exists d1 m1 d2 m2 y,
    first_match date_pattern_short (strip a) [d1; m1] /\
    first_match date_pattern_short (strip b) [d2; m2] /\
    first_match year_pattern date_str [y] /\
    parse_date date_str st =
    (Ok (Some (iso_date y m1 d1), Some (iso_date y m2 d2)), after_clock st).
Proof.
  intros H Hmix.
  assert (Sa : contains date_pattern_short (strip a))
    by (destruct Hmix as [(F & _ & _)|(_ & S & _)]; auto using contains_full_short).
  assert (Sb : contains date_pattern_short (strip b))
    by (destruct Hmix as [(_ & _ & S)|(_ & _ & F)]; auto using contains_full_short).
  assert (Hn : ~ (contains date_pattern_full (strip a)
                  /\ contains date_pattern_full (strip b))) by tauto.
  assert (Hy : contains year_pattern date_str).
  { destruct Hmix as [(F & _ & _)|(_ & _ & F)]; apply contains_full_year in F.
    - eapply contains_segment_left; eauto.
    - eapply contains_segment_right; eauto. }
  apply first_match_exists in Sa as (ga & Sa), Sb as (gb & Sb).
  destruct (first_short_groups _ _ Sa) as (d1 & m1 & ->).
  destruct (first_short_groups _ _ Sb) as (d2 & m2 & ->).
  destruct (parse_date_short_path _ _ _ _ _ _ _ st H Hn Sa Sb) as (y & Hrun & Hyr).
  exists d1, m1, d2, m2, y. repeat split; auto.
  destruct Hyr as [Hyr|[Hno _]]; [exact Hyr|contradiction].
Qed.

(** C3, as amended: when both segments contain a short date and neither a
    full one, both dates carry one year: the first four digits in a row of
    the whole text, wherever they stand, or the current year when the text
    has no four digits in a row. *)
Theorem parse_date_short_form (date_str a b : str) (st : St) :
  split dash (strip date_str) = [a; b] ->
  ~ contains date_pattern_full (strip a) ->
  ~ contains date_pattern_full (strip b) ->
  contains date_pattern_short (strip a) ->
  contains date_pattern_short (strip b) ->
  exists d1 m1 d2 m2 y,
    first_match date_pattern_short (strip a) [d1; m1] /\
    first_match date_pattern_short (strip b) [d2; m2] /\
    parse_date date_str st =
    (Ok (Some (iso_date y m1 d1), Some (iso_date y m2 d2)), after_clock st) /\
    (first_match year_pattern date_str [y]
     \/ ~ contains year_pattern date_str /\ y = current_year st).
Proof.
  intros H Na Nb Sa Sb.
  assert (Hn : ~ (contains date_pattern_full (strip a)
                  /\ contains date_pattern_full (strip b))) by tauto.
  apply first_match_exists in Sa as (ga & Sa), Sb as (gb & Sb).
  destruct (first_short_groups _ _ Sa) as (d1 & m1 & ->).
  destruct (first_short_groups _ _ Sb) as (d2 & m2 & ->).
  destruct (parse_date_short_path _ _ _ _ _ _ _ st H Hn Sa Sb) as (y & Hrun & Hyr).
  exists d1, m1, d2, m2, y. repeat split; auto.
Qed.

(** C4: [parse_date] never raises and always returns a pair, of two dates
    or of two [None]; it returns [(None, None)] when the split does not
    give two parts and when neither pattern matches both segments; and
    whatever the body of its [try] block does, an exception raised there
    is turned into [(None, None)]. *)
Theorem parse_date_never_raises (date_str : str) (st : St) :
  exists r st',
    parse_date date_str st = (Ok r, st') /\
    (r = (None, None) \/ exists f t, r = (Some f, Some t)) /\
    (length (split dash (strip date_str)) <> 2 -> r = (None, None)) /\
    (forall a b,
        split dash (strip date_str) = [a; b] ->
        ~ (contains date_pattern_full (strip a)
           /\ contains date_pattern_full (strip b)) ->
        ~ (contains date_pattern_short (strip a)
           /\ contains date_pattern_short (strip b)) ->
        r = (None, None)) /\
    (forall body : M (option str * option str),
        exists r' st'',
          try_except body (parse_date_except date_str) st = (Ok r', st'') /\
          forall e st1, body st = (Raise e, st1) -> r' = (None, None)).
Proof.
  assert (Hexc : forall body : M (option str * option str),
             exists r' st'',
               try_except body (parse_date_except date_str) st = (Ok r', st'') /\
               forall e st1, body st = (Raise e, st1) -> r' = (None, None)).
  { intros body. unfold try_except. destruct (body st) as [[r'|e] st1].
    - exists r', st1; split; [reflexivity|discriminate].
    - do 2 eexists; split; [reflexivity|reflexivity]. }
  destruct (parse_date_cases date_str st)
    as [(st' & Hrun & _)|[(f & t & Hrun & _)|(f & t & Hrun & _)]].
  - exists (None, None), st'; repeat split; auto.
  - exists (Some f, Some t), st; repeat split; eauto.
    + intros Hl. rewrite (parse_date_wrong_count _ _ Hl) in Hrun. congruence.
    + intros a b E Hf Hs.
      rewrite (parse_date_no_match _ _ _ _ E Hf Hs) in Hrun. congruence.
  - exists (Some f, Some t), (after_clock st); repeat split; eauto.
    + intros Hl. rewrite (parse_date_wrong_count _ _ Hl) in Hrun. congruence.
    + intros a b E Hf Hs.
      rewrite (parse_date_no_match _ _ _ _ E Hf Hs) in Hrun. congruence.
Qed.

(** The malformed inputs of the specification. *)
Example parse_date_malformed (st : St) :
  fst (parse_date (py "not a date") st) = Ok (None, None) /\
  fst (parse_date (py "") st) = Ok (None, None) /\
  fst (parse_date (py "01.03.2024") st) = Ok (None, None) /\
  fst (parse_date (py "01.03.2024 - 15.03.2024 - 30.03.2024") st) = Ok (None, None).
Proof. repeat split. Qed.

(** C10: on an input with a full date in both segments the result of
    [parse_date] is the same in any two states, and the call leaves the
    state, the clock included, untouched; in general two calls on one
    input can differ only on the short path of a text without four digits
    in a row. *)
Theorem parse_date_clock_independence :
  (forall (date_str a b : str) (st1 st2 : St),
      split dash (strip date_str) = [a; b] ->
      contains date_pattern_full (strip a) ->
      contains date_pattern_full (strip b) ->
      fst (parse_date date_str st1) = fst (parse_date date_str st2)
      /\ snd (parse_date date_str st1) = st1)
  /\ (forall (date_str : str) (st1 st2 : St),
         fst (parse_date date_str st1) <> fst (parse_date date_str st2) ->
         ~ contains year_pattern date_str
         /\ exists a b,
             split dash (strip date_str) = [a; b]
             /\ ~ (contains date_pattern_full (strip a)
                   /\ contains date_pattern_full (strip b))
             /\ contains date_pattern_short (strip a)
             /\ contains date_pattern_short (strip b)).
Proof.
  split.
  - intros date_str a b st1 st2 H Fa Fb.
    apply first_match_exists in Fa as (ga & Ha), Fb as (gb & Hb).
    destruct (first_full_groups _ _ Ha) as (d1 & m1 & y1 & ->).
    destruct (first_full_groups _ _ Hb) as (d2 & m2 & y2 & ->).
    rewrite (parse_date_full_path _ _ _ _ _ _ _ _ _ st1 H Ha Hb),
      (parse_date_full_path _ _ _ _ _ _ _ _ _ st2 H Ha Hb). auto.
  - intros date_str st1 st2 Hdiff.
    destruct (Nat.eq_dec (length (split dash (strip date_str))) 2) as [E|E].
    2:{ exfalso; apply Hdiff.
        now rewrite !(parse_date_wrong_count _ _ E). }
    apply length_two in E as (a & b & E).
    destruct (contains_dec date_pattern_full (strip a)) as [Fa|Fa].
    1: destruct (contains_dec date_pattern_full (strip b)) as [Fb|Fb].
    1:{ exfalso; apply Hdiff.
        apply first_match_exists in Fa as (ga & Ha), Fb as (gb & Hb).
        destruct (first_full_groups _ _ Ha) as (d1 & m1 & y1 & ->).
        destruct (first_full_groups _ _ Hb) as (d2 & m2 & y2 & ->).
        now rewrite (parse_date_full_path _ _ _ _ _ _ _ _ _ st1 E Ha Hb),
          (parse_date_full_path _ _ _ _ _ _ _ _ _ st2 E Ha Hb). }
    all: assert (Hn : ~ (contains date_pattern_full (strip a)
                         /\ contains date_pattern_full (strip b))) by tauto.
    all: destruct (contains_dec date_pattern_short (strip a)) as [Sa|Sa];
      [destruct (contains_dec date_pattern_short (strip b)) as [Sb|Sb]|];
      try (exfalso; apply Hdiff;
           rewrite !(parse_date_no_match _ _ _ _ E Hn) by tauto; reflexivity).
    all: split; [|now exists a, b].
    all: intros Hy; apply Hdiff.
    all: apply first_match_exists in Sa as (ga & Sa), Sb as (gb & Sb).
    all: destruct (first_short_groups _ _ Sa) as (d1 & m1 & ->).
    all: destruct (first_short_groups _ _ Sb) as (d2 & m2 & ->).
    all: destruct (parse_date_short_path _ _ _ _ _ _ _ st1 E Hn Sa Sb) as (y & R1 & [Y1|[Y1 _]]);
      [|contradiction].
    all: destruct (parse_date_short_path _ _ _ _ _ _ _ st2 E Hn Sa Sb) as (y' & R2 & [Y2|[Y2 _]]);
      [|contradiction].
    all: pose proof (first_match_unique _ _ _ _ Y1 Y2) as Heq; inversion Heq; subst.
    all: now rewrite R1, R2.
Qed.

End ParseDateClaims.

(** The example of the specification, obtained from the theorem. *)
Lemma parse_date_full_form_witness :
  split dash (strip (py "01.03.2024 - 15.03.2024"))
  = [py "01.03.2024 "; py " 15.03.2024"]
  /\ @contains sample_platform date_pattern_full (strip (py "01.03.2024 "))
  /\ @contains sample_platform date_pattern_full (strip (py " 15.03.2024"))
  /\ @parse_date sample_platform (py "01.03.2024 - 15.03.2024") (sample_state [])
     = (Ok (Some (py "2024-03-01"), Some (py "2024-03-15")), sample_state []).
Proof.
  assert (H : split dash (strip (py "01.03.2024 - 15.03.2024"))
              = [py "01.03.2024 "; py " 15.03.2024"]) by reflexivity.
  assert (Fa : @contains sample_platform date_pattern_full (strip (py "01.03.2024 ")))
    by (apply contains_search; reflexivity).
  assert (Fb : @contains sample_platform date_pattern_full (strip (py " 15.03.2024")))
    by (apply contains_search; reflexivity).
  split; [exact H|]. split; [exact Fa|]. split; [exact Fb|].
  destruct (parse_date_full_form _ _ _ (sample_state []) H Fa Fb)
    as (d1 & m1 & y1 & d2 & m2 & y2 & Ha & Hb & Hrun).
  pose proof (first_match_unique _ _ _ _ Ha
                (first_match_search date_pattern_full (strip (py "01.03.2024 "))
                   (mk_match 0 [py "01"; py "03"; py "2024"]) eq_refl)) as Ea.
  pose proof (first_match_unique _ _ _ _ Hb
                (first_match_search date_pattern_full (strip (py " 15.03.2024"))
                   (mk_match 0 [py "15"; py "03"; py "2024"]) eq_refl)) as Eb.
  simpl in Ea, Eb. inversion Ea; inversion Eb; subst. exact Hrun.
Defined.

(** C2 as stated fails: on "01.03.2024 - 15.03." the first segment holds a
    full date and the second only a short one, and two dates come back. *)
Lemma mixed_forms_counterexample :
  (forall P : Platform,
      split dash (strip (py "01.03.2024 - 15.03.")) = [py "01.03.2024 "; py " 15.03."]
      /\ contains date_pattern_full (strip (py "01.03.2024 "))
      /\ ~ contains date_pattern_full (strip (py " 15.03."))
      /\ contains date_pattern_short (strip (py " 15.03.")))
  /\ (forall (P : Platform) (st : St),
         fst (parse_date (py "01.03.2024 - 15.03.") st)
         = Ok (Some (py "2024-03-01"), Some (py "2024-03-15"))).
Proof.
  split.
  - intros P. split; [reflexivity|]. split; [|split].
    + apply contains_search; reflexivity.
    + apply not_contains_search; reflexivity.
    + apply contains_search; reflexivity.
  - intros P st. unfold parse_date, try_except, parse_date_body.
    cbn. unfold bind, io. destruct (clock (world st)). reflexivity.
Qed.

(** A short date first, then a full one: "01.03. - 15.03.2024". *)
Lemma parse_date_mixed_forms_witness :
  split dash (strip (py "01.03. - 15.03.2024")) = [py "01.03. "; py " 15.03.2024"]
  /\ (~ @contains sample_platform date_pattern_full (strip (py "01.03. "))
      /\ @contains sample_platform date_pattern_short (strip (py "01.03. "))
      /\ @contains sample_platform date_pattern_full (strip (py " 15.03.2024")))
  /\ exists d1 m1 d2 m2 y,
      @first_match sample_platform date_pattern_short (strip (py "01.03. ")) [d1; m1] /\
      @first_match sample_platform date_pattern_short (strip (py " 15.03.2024")) [d2; m2] /\
      @first_match sample_platform year_pattern (py "01.03. - 15.03.2024") [y] /\
      @parse_date sample_platform (py "01.03. - 15.03.2024") (sample_state [])
      = (Ok (Some (iso_date y m1 d1), Some (iso_date y m2 d2)),
         after_clock (sample_state [])).
Proof.
  assert (H : split dash (strip (py "01.03. - 15.03.2024"))
              = [py "01.03. "; py " 15.03.2024"]) by reflexivity.
  assert (Hm : ~ @contains sample_platform date_pattern_full (strip (py "01.03. "))
               /\ @contains sample_platform date_pattern_short (strip (py "01.03. "))
               /\ @contains sample_platform date_pattern_full (strip (py " 15.03.2024"))).
  { split; [apply not_contains_search; reflexivity|].
    split; apply contains_search; reflexivity. }
  split; [exact H|]. split; [exact Hm|].
  exact (parse_date_mixed_forms _ _ _ (sample_state []) H (or_intror Hm)).
Defined.

(** C3 as stated fails: in "01.03. - 15.03. 12345" no four-digit number
    stands alone, so the current year is asked for (2026 in the sample
    state), yet the dates come back with the year 1234; and in
    "01.03. - 15.03. 12345 2024" the number 2024 stands alone, yet the year
    is again 1234. *)
Lemma standalone_year_counterexample :
  (forall P : Platform,
      split dash (strip (py "01.03. - 15.03. 12345")) = [py "01.03. "; py " 15.03. 12345"]
      /\ ~ contains date_pattern_full (strip (py "01.03. "))
      /\ ~ contains date_pattern_full (strip (py " 15.03. 12345"))
      /\ contains date_pattern_short (strip (py "01.03. "))
      /\ contains date_pattern_short (strip (py " 15.03. 12345"))
      /\ standalone_year (py "01.03. - 15.03. 12345") = None)
  /\ (forall (P : Platform) (st : St),
         fst (parse_date (py "01.03. - 15.03. 12345") st)
         = Ok (Some (py "1234-03-01"), Some (py "1234-03-15")))
  /\ iso_date (@specified_year sample_platform (py "01.03. - 15.03. 12345")
                 (sample_state []))
       (py "03") (py "01")
     = py "2026-03-01"
  /\ (forall P : Platform,
         standalone_year (py "01.03. - 15.03. 12345 2024") = Some (py "2024"))
  /\ (forall (P : Platform) (st : St),
         fst (parse_date (py "01.03. - 15.03. 12345 2024") st)
         = Ok (Some (py "1234-03-01"), Some (py "1234-03-15"))).
Proof.
  split; [|split; [|split; [|split]]].
  - intros P. split; [reflexivity|].
    split; [apply not_contains_search; reflexivity|].
    split; [apply not_contains_search; reflexivity|].
    split; [apply contains_search; reflexivity|].
    split; [apply contains_search; reflexivity|reflexivity].
  - intros P st. unfold parse_date, try_except, parse_date_body.
    cbn. unfold bind, io. destruct (clock (world st)). reflexivity.
  - reflexivity.
  - reflexivity.
  - intros P st. unfold parse_date, try_except, parse_date_body.
    cbn. unfold bind, io. destruct (clock (world st)). reflexivity.
Qed.

(** Two short dates and no year: the current year is used. *)
Lemma parse_date_short_form_witness :
  split dash (strip (py "01.03. - 15.03.")) = [py "01.03. "; py " 15.03."]
  /\ ~ @contains sample_platform date_pattern_full (strip (py "01.03. "))
  /\ ~ @contains sample_platform date_pattern_full (strip (py " 15.03."))
  /\ @contains sample_platform date_pattern_short (strip (py "01.03. "))
  /\ @contains sample_platform date_pattern_short (strip (py " 15.03."))
  /\ exists d1 m1 d2 m2 y,
      @first_match sample_platform date_pattern_short (strip (py "01.03. ")) [d1; m1] /\
      @first_match sample_platform date_pattern_short (strip (py " 15.03.")) [d2; m2] /\
      @parse_date sample_platform (py "01.03. - 15.03.") (sample_state [])
      = (Ok (Some (iso_date y m1 d1), Some (iso_date y m2 d2)),
         after_clock (sample_state [])) /\
      (@first_match sample_platform year_pattern (py "01.03. - 15.03.") [y]
       \/ ~ @contains sample_platform year_pattern (py "01.03. - 15.03.")
          /\ y = current_year (sample_state [])).
Proof.
  assert (H : split dash (strip (py "01.03. - 15.03."))
              = [py "01.03. "; py " 15.03."]) by reflexivity.
  assert (Na : ~ @contains sample_platform date_pattern_full (strip (py "01.03. ")))
    by (apply not_contains_search; reflexivity).
  assert (Nb : ~ @contains sample_platform date_pattern_full (strip (py " 15.03.")))
    by (apply not_contains_search; reflexivity).
  assert (Sa : @contains sample_platform date_pattern_short (strip (py "01.03. ")))
    by (apply contains_search; reflexivity).
  assert (Sb : @contains sample_platform date_pattern_short (strip (py " 15.03.")))
    by (apply contains_search; reflexivity).
  split; [exact H|]. split; [exact Na|]. split; [exact Nb|].
  split; [exact Sa|]. split; [exact Sb|].
  exact (parse_date_short_form _ _ _ (sample_state []) H Na Nb Sa Sb).
Defined.

(** The same full-form input in 2026 and in 2031. *)
Lemma parse_date_clock_independence_witness :
  split dash (strip (py "01.03.2024 - 15.03.2024"))
  = [py "01.03.2024 "; py " 15.03.2024"]
  /\ @contains sample_platform date_pattern_full (strip (py "01.03.2024 "))
  /\ @contains sample_platform date_pattern_full (strip (py " 15.03.2024"))
  /\ fst (@parse_date sample_platform (py "01.03.2024 - 15.03.2024") (sample_state []))
     = fst (@parse_date sample_platform (py "01.03.2024 - 15.03.2024")
              (sample_state_in 2031 [])).
Proof.
  assert (H : split dash (strip (py "01.03.2024 - 15.03.2024"))
              = [py "01.03.2024 "; py " 15.03.2024"]) by reflexivity.
  assert (Fa : @contains sample_platform date_pattern_full (strip (py "01.03.2024 ")))
    by (apply contains_search; reflexivity).
  assert (Fb : @contains sample_platform date_pattern_full (strip (py " 15.03.2024")))
    by (apply contains_search; reflexivity).
  split; [exact H|]. split; [exact Fa|]. split; [exact Fb|].
  exact (proj1 (proj1 parse_date_clock_independence _ _ _ _ _ H Fa Fb)).
Defined.

(** ** [extract_brochure_data] *)

Section ExtractFacts.
Context {P : Platform}.

Lemma find_thumbnail_run brochure shop st :
  exists st', find_thumbnail brochure shop st = (Ok (found_thumbnail brochure), st')
              /\ world st' = world st.
Proof.
  unfold find_thumbnail, found_thumbnail.
  destruct (find (py "img") (Some (py "lazyloadBrochure")) brochure) as [img|].
  - destruct (truthy_opt (get (py "data-src") img)).
    + eexists; split; reflexivity.
    + destruct (find (py "img") None brochure) as [img'|].
      * destruct (truthy_opt (py_or (get (py "src") img') (get (py "data-src") img')));
          eexists; split; reflexivity.
      * eexists; split; reflexivity.
  - destruct (find (py "img") None brochure) as [img'|].
    + destruct (truthy_opt (py_or (get (py "src") img') (get (py "data-src") img')));
        eexists; split; reflexivity.
    + eexists; split; reflexivity.
Qed.

Lemma found_thumbnail_truthy brochure u :
  found_thumbnail brochure = Some u -> truthy u = true.
Proof.
  unfold found_thumbnail.
  assert (F : forall o, (if truthy_opt o then o else None) = Some u -> truthy u = true).
  { intros [s|]; simpl; [|discriminate].
    destruct (truthy s) eqn:E; [|discriminate]. now intros [= <-]. }
  destruct (find (py "img") (Some (py "lazyloadBrochure")) brochure) as [img|].
  - destruct (truthy_opt (get (py "data-src") img)) eqn:E.
    + intros H. rewrite H in E. exact E.
    + destruct (find (py "img") None brochure); [apply F|discriminate].
  - destruct (find (py "img") None brochure); [apply F|discriminate].
Qed.

Lemma find_date_element_run brochure shop st :
  exists st', find_date_element brochure shop st = (Ok (found_date_element brochure), st')
              /\ world st' = world st.
Proof.
  unfold find_date_element, found_date_element.
  destruct (find (py "small") (Some (py "visible-sm")) brochure).
  - eexists; split; reflexivity.
  - destruct (find (py "small") (Some (py "hidden-sm")) brochure);
      eexists; split; reflexivity.
Qed.

(** The extractor never raises. *)
Lemma extract_never_raises brochure shop st :
  exists o st', extract_brochure_data brochure shop st = (Ok o, st').
Proof.
  unfold extract_brochure_data, try_except.
  destruct (extract_brochure_body brochure shop st) as [[o|e] st1]; eauto.
  do 2 eexists; reflexivity.
Qed.

Lemma date_shaped_form st s : date_shaped st s -> date_form s.
Proof.
  intros (y & m & d & -> & Hm & Hd & Hy).
  exists y, m, d. split; [reflexivity|]. split; [exact Hm|]. split; [exact Hd|].
  destruct Hy as [Hy| ->]; [now left|right; eexists; reflexivity].
Qed.

(** What an accepted fragment and its record look like. *)
Lemma extract_accepted brochure shop st r st' :
  extract_brochure_data brochure shop st = (Ok (Some r), st') ->
  exists title_element u date_element,
    find (py "div") (Some (py "grid-item-old")) brochure = None /\
    find (py "strong") None brochure = Some title_element /\
    found_thumbnail brochure = Some u /\
    found_date_element brochure = Some date_element /\
    title r = strip (get_text title_element) /\
    (if is_http u then thumbnail r = u
     else urlresolve BASE_URL u = Some (thumbnail r)) /\
    shop_name r = shop /\
    date_form (valid_from r) /\ date_form (valid_to r) /\
    (exists st1 st2,
        parse_date (strip (get_text date_element)) st1
        = (Ok (Some (valid_from r), Some (valid_to r)), st2)
        /\ world st1 = world st
        /\ parsed_time r = strftime (fst (clock (world st2)))
        /\ st' = after_clock st2).
Proof.
  unfold extract_brochure_data, try_except.
  destruct (extract_brochure_body brochure shop st) as [[o|e] st0] eqn:Hb;
    [|discriminate].
  intros [= -> ->]. revert Hb. unfold extract_brochure_body.
  destruct (find (py "div") (Some (py "grid-item-old")) brochure); [discriminate|].
  destruct (find (py "strong") None brochure) as [title_element|]; [|discriminate].
  unfold bind at 1.
  destruct (find_thumbnail_run brochure shop st) as (st1 & -> & W1).
  destruct (found_thumbnail brochure) as [u|] eqn:Hu; [|discriminate].
  pose proof (found_thumbnail_truthy _ _ Hu) as Tu.
  unfold bind at 1. fold (is_http u).
  assert (Hj : exists o,
             (if negb (is_http u) then urljoin BASE_URL (Some u) else ret u) st1
             = (o, st1)
             /\ forall thumb, o = Ok thumb ->
                  if is_http u then thumb = u
                  else urlresolve BASE_URL u = Some thumb).
  { destruct (is_http u); simpl.
    - eexists; split; [reflexivity|]. now intros thumb [= <-].
    - unfold urljoin. rewrite Tu; simpl.
      destruct (urlresolve BASE_URL u) as [t|];
        eexists; (split; [reflexivity|]); intros thumb; [now intros [= <-]|discriminate]. }
  destruct Hj as (oj & -> & Hj). destruct oj as [thumb|e]; [|discriminate].
  specialize (Hj thumb eq_refl).
  unfold bind at 1.
  destruct (find_date_element_run brochure shop st1) as (st2 & -> & W2).
  destruct (found_date_element brochure) as [date_element|]; [|discriminate].
  unfold bind at 1.
  destruct (parse_date_cases (strip (get_text date_element)) st2)
    as [(st3 & Hrun & _)|[(f & t & Hrun & Hf & Ht)|(f & t & Hrun & Hf & Ht)]];
    rewrite Hrun; [discriminate| |];
    (destruct (truthy f); [|discriminate]);
    (destruct (truthy t); [|discriminate]);
    cbn [negb orb]; unfold bind at 1; rewrite io_clock; intros [= <- <-];
    exists title_element, u, date_element; cbn [title thumbnail shop_name valid_from valid_to parsed_time];
    (repeat split; eauto using date_shaped_form);
    exists st2; eexists; (split; [exact Hrun|]); (split; [congruence|]); split; reflexivity.
Qed.

End ExtractFacts.

Section RecordClaims.
Context {P : Platform}.

(** The dates of a successful parse are built from the digits matched. *)
Lemma parse_date_success date_str st f t st' :
  parse_date date_str st = (Ok (Some f, Some t), st') ->
  dates_from st date_str f t.
Proof.
  intros H.
  destruct (Nat.eq_dec (length (split dash (strip date_str))) 2) as [E|E].
  2:{ rewrite (parse_date_wrong_count _ _ E) in H. discriminate H. }
  apply length_two in E as (a & b & E).
  assert (Hshort :
            ~ (contains date_pattern_full (strip a)
               /\ contains date_pattern_full (strip b)) ->
            dates_from st date_str f t).
  { intros Hn.
    destruct (contains_dec date_pattern_short (strip a)) as [Sa|Sa];
      [destruct (contains_dec date_pattern_short (strip b)) as [Sb|Sb]|].
    - apply first_match_exists in Sa as (ga & Sa), Sb as (gb & Sb).
      destruct (first_short_groups _ _ Sa) as (d1 & m1 & ->).
      destruct (first_short_groups _ _ Sb) as (d2 & m2 & ->).
      destruct (parse_date_short_path _ _ _ _ _ _ _ st E Hn Sa Sb) as (y & Hrun & Hy).
      rewrite Hrun in H. injection H as <- <- _.
      exists a, b, d1, m1, y, d2, m2, y.
      split; [exact E|]. split; [reflexivity|]. split; [reflexivity|].
      right. repeat split; auto.
    - rewrite (parse_date_no_match _ _ _ st E Hn) in H by tauto. discriminate H.
    - rewrite (parse_date_no_match _ _ _ st E Hn) in H by tauto. discriminate H. }
  destruct (contains_dec date_pattern_full (strip a)) as [Fa|Fa];
    [destruct (contains_dec date_pattern_full (strip b)) as [Fb|Fb]|];
    [|apply Hshort; tauto|apply Hshort; tauto].
  apply first_match_exists in Fa as (ga & Fa), Fb as (gb & Fb).
  destruct (first_full_groups _ _ Fa) as (d1 & m1 & y1 & ->).
  destruct (first_full_groups _ _ Fb) as (d2 & m2 & y2 & ->).
  rewrite (parse_date_full_path _ _ _ _ _ _ _ _ _ st E Fa Fb) in H.
  injection H as <- <- _.
  exists a, b, d1, m1, y1, d2, m2, y2.
  split; [exact E|]. split; [reflexivity|]. split; [reflexivity|]. now left.
Qed.

(** Dates built this way have two digits for the month and for the day,
    and for the year four digits or the number of the current year. *)
Lemma dates_from_shaped st date_str f t :
  dates_from st date_str f t -> date_shaped st f /\ date_shaped st t.
Proof.
  intros (a & b & d1 & m1 & y1 & d2 & m2 & y2 & _ & -> & -> & H).
  destruct H as [(Fa & Fb)|(_ & Sa & Sb & -> & Hy)].
  - destruct (first_full_digits _ _ _ _ Fa) as (D1 & M1 & Y1).
    destruct (first_full_digits _ _ _ _ Fb) as (D2 & M2 & Y2).
    split; do 3 eexists; (split; [reflexivity|]); auto.
  - destruct (first_short_digits _ _ _ Sa) as (D1 & M1).
    destruct (first_short_digits _ _ _ Sb) as (D2 & M2).
    assert (Y : digits 4 y1 \/ y1 = current_year st).
    { destruct Hy as [Hy|[_ Hy]]; [left; now apply first_year_digits in Hy|now right]. }
    split; do 3 eexists; (split; [reflexivity|]); auto.
Qed.

(** Only the world of the state matters to how the dates are built. *)
Lemma dates_from_world st1 st date_str f t :
  world st1 = world st -> dates_from st1 date_str f t -> dates_from st date_str f t.
Proof.
  intros W (a & b & d1 & m1 & y1 & d2 & m2 & y2 & E & Hf & Ht & H).
  exists a, b, d1, m1, y1, d2, m2, y2. repeat (split; [assumption|]).
  destruct H as [H|(Hn & Sa & Sb & Hy & Hyr)]; [now left|right].
  repeat (split; [assumption|]).
  destruct Hyr as [Hyr|[Hno ->]]; [now left|right]. split; [exact Hno|].
  unfold current_year. now rewrite W.
Qed.

(** C5, as amended: in every record the extractor produces, [valid_from]
    and [valid_to] are built from the digits [parse_date] matches in the
    stripped text of the date element: each has the form year-month-day
    with a month and a day of two matched digits, and a year that is four
    matched digits or the number of the current year read from the clock;
    the values are not checked against the calendar. *)
Theorem record_dates_form (brochure : Node) (shop : str) (st st' : St) (r : Brochure) :
  extract_brochure_data brochure shop st = (Ok (Some r), st') ->
  exists date_element,
    found_date_element brochure = Some date_element /\
    dates_from st (strip (get_text date_element)) (valid_from r) (valid_to r) /\
    date_shaped st (valid_from r) /\ date_shaped st (valid_to r).
Proof.
  intros H. apply extract_accepted in H
    as (te & u & de & _ & _ & _ & Hd & _ & _ & _ & _ & _ & st1 & st2 & Hp & W & _).
  apply parse_date_success in Hp. apply (dates_from_world _ _ _ _ _ W) in Hp.
  exists de. split; [exact Hd|]. split; [exact Hp|].
  now apply dates_from_shaped in Hp.
Qed.

(** C6, as amended: the title of every record the extractor produces is
    the text of the first [strong] element of the fragment with the white
    space around it removed; it is empty exactly when that text is empty
    or all white space. *)
Theorem record_title (brochure : Node) (shop : str) (st st' : St) (r : Brochure) :
  extract_brochure_data brochure shop st = (Ok (Some r), st') ->
  exists title_element,
    find (py "strong") None brochure = Some title_element /\
    title r = strip (get_text title_element) /\
    (title r = [] <-> forallb is_space (get_text title_element) = true).
Proof.
  intros H. apply extract_accepted in H
    as (te & u & de & _ & Hs & _ & _ & Ht & _).
  exists te. split; [exact Hs|]. split; [exact Ht|].
  rewrite Ht. apply strip_empty_iff.
Qed.





End RecordClaims.

(** C5 as stated fails: a fragment dated "30.02.2024 - 99.99.2024" is
    accepted on every platform, and neither date of its record is a
    calendar date. *)
Lemma calendar_dates_counterexample :
  (forall (P : Platform) (st : St),
      exists r st',
        extract_brochure_data
          (sample_fragment "Angebote" "https://img.example/t.jpg"
             "30.02.2024 - 99.99.2024") (py "A") st = (Ok (Some r), st')
        /\ valid_from r = py "2024-02-30" /\ valid_to r = py "2024-99-99")
  /\ well_formed_date (py "2024-02-30") = false
  /\ well_formed_date (py "2024-99-99") = false.
Proof.
  split; [|split; reflexivity].
  intros P st. destruct (clock (world st)) as [now w] eqn:E.
  unfold extract_brochure_data, try_except, extract_brochure_body.
  cbn. unfold bind, io. cbn. rewrite E.
  do 2 eexists. split; [reflexivity|]. split; reflexivity.
Qed.

(** C6 as stated fails: a fragment whose title element holds only white
    space is accepted on every platform, with an empty title. *)
Lemma empty_title_counterexample :
  forallb is_space (py "   ") = true
  /\ (forall (P : Platform) (st : St),
      exists r st',
        extract_brochure_data
          (sample_fragment "   " "https://img.example/t.jpg"
             "01.03.2024 - 15.03.2024") (py "A") st = (Ok (Some r), st')
        /\ title r = []).
Proof.
  split; [reflexivity|].
  intros P st. destruct (clock (world st)) as [now w] eqn:E.
  unfold extract_brochure_data, try_except, extract_brochure_body.
  cbn. unfold bind, io. cbn. rewrite E.
  do 2 eexists. split; reflexivity.
Qed.

(** The first brochure of shop A on the sample site. *)
Lemma record_dates_form_witness :
  @extract_brochure_data sample_platform (sample_brochure "a1") (py "A") (sample_state [])
  = (Ok (Some (sample_record "A" "a1")), sample_state [])
  /\ exists date_element,
      found_date_element (sample_brochure "a1") = Some date_element /\
      @dates_from sample_platform (sample_state []) (strip (get_text date_element))
        (py "2024-03-01") (py "2024-03-15") /\
      @date_shaped sample_platform (sample_state []) (py "2024-03-01") /\
      @date_shaped sample_platform (sample_state []) (py "2024-03-15").
Proof.
  assert (H : @extract_brochure_data sample_platform (sample_brochure "a1") (py "A")
                (sample_state [])
              = (Ok (Some (sample_record "A" "a1")), sample_state [])) by reflexivity.
  split; [exact H|].
  exact (@record_dates_form sample_platform _ _ _ _ _ H).
Defined.

(** The title of the first brochure of shop A. *)
Lemma record_title_witness :
  @extract_brochure_data sample_platform (sample_brochure "a1") (py "A") (sample_state [])
  = (Ok (Some (sample_record "A" "a1")), sample_state [])
  /\ exists title_element,
      find (py "strong") None (sample_brochure "a1") = Some title_element /\
      py "a1" = strip (get_text title_element) /\
      (py "a1" = [] <-> forallb is_space (get_text title_element) = true).
Proof.
  assert (H : @extract_brochure_data sample_platform (sample_brochure "a1") (py "A")
                (sample_state [])
              = (Ok (Some (sample_record "A" "a1")), sample_state [])) by reflexivity.
  split; [exact H|].
  exact (@record_title sample_platform _ _ _ _ _ H).
Defined.



(** ** The walks *)

Section WalkFacts.
Context {P : Platform}.

Lemma bind_ext {A B} (c : M A) (k1 k2 : A -> M B) st :
  (forall a st', k1 a st' = k2 a st') -> bind c k1 st = bind c k2 st.
Proof. intros H. unfold bind. destruct (c st) as [[a|e] st']; auto. Qed.

Lemma bind_assoc {A B C} (c : M A) (k : A -> M B) (h : B -> M C) st :
  bind (bind c k) h st = bind c (fun a => bind (k a) h) st.
Proof.
  unfold bind. destruct (c st) as [[a|e] st']; auto.
Qed.

Lemma bind_cong {A B} (c1 c2 : M A) (k : A -> M B) st :
  c1 st = c2 st -> bind c1 k st = bind c2 k st.
Proof. intros H. unfold bind. now rewrite H. Qed.

Lemma bind_ret {A B} (a : A) (k : A -> M B) st : bind (ret a) k st = k a st.
Proof. reflexivity. Qed.

Lemma somes_cons_some {A} (a : A) l : somes (Some a :: l) = a :: somes l.
Proof. reflexivity. Qed.

(** The loop of [get_brochures_for_shop] keeps, in order, the records of
    the fragments the extractor accepts. *)
Lemma for_each_collect shop frags acc st :
  for_each frags acc (collect_brochure shop) st
  = (results <- map_m (extract_logged shop) frags ;; ret (acc ++ somes results)) st.
Proof.
  revert acc st; induction frags as [|x r IH]; intros acc st.
  - cbn. unfold bind, ret. now rewrite app_nil_r.
  - cbn [for_each map_m]. unfold collect_brochure at 1, extract_logged at 1.
    unfold bind at 1 2 3 4 5 6 7.
    destruct (extract_brochure_data x shop st) as [[[d|]|e] st1]; cbn.
    + rewrite IH. unfold bind, ret.
      destruct (map_m (extract_logged shop) r _) as [[ys|e] st2]; auto.
      now rewrite somes_cons_some, <- app_assoc.
    + rewrite IH. unfold bind, ret.
      destruct (map_m (extract_logged shop) r _) as [[ys|e] st2]; auto.
    + reflexivity.
Qed.

Lemma get_brochures_is_sequence shop_url shop st :
  get_brochures_for_shop shop_url shop st = shop_sequence shop_url shop st.
Proof.
  unfold get_brochures_for_shop, shop_sequence.
  apply bind_ext; intros full_url st1.
  apply bind_ext; intros _ st2.
  apply bind_ext; intros [soup|] st3; [|reflexivity].
  apply bind_ext; intros _ st4.
  now rewrite for_each_collect.
Qed.

Lemma scrape_hypermarket_visit total acc i h st :
  scrape_hypermarket total acc (i, h) st
  = (brochures <- visit total i h ;; ret (acc ++ brochures)) st.
Proof.
  unfold scrape_hypermarket, visit. unfold bind, ret.
  destruct (logger_info _ _ st) as [[[]|e] st1]; auto.
  destruct (get_brochures_for_shop (url h) (name h) st1) as [[bs|e] st2]; auto.
  destruct (pause total i st2) as [[[]|e] st3]; auto.
Qed.

(** The loop of [scrape_all_hypermarkets] appends the shops' sequences in
    catalog order. *)
Lemma for_each_scrape total i hs acc st :
  for_each (enumerate_from i hs) acc (scrape_hypermarket total) st
  = (sequences <- visit_shops total i hs ;; ret (acc ++ concat sequences)) st.
Proof.
  revert i acc st; induction hs as [|h r IH]; intros i acc st.
  - cbn. unfold bind, ret. now rewrite app_nil_r.
  - unfold enumerate_from. cbn [length seq combine for_each visit_shops].
    fold (enumerate_from (S i) r).
    rewrite (bind_cong _ _ _ st (scrape_hypermarket_visit total acc i h st)).
    rewrite !bind_assoc. apply bind_ext; intros bs st1.
    rewrite bind_ret, IH, bind_assoc. apply bind_ext; intros rss st2.
    rewrite bind_ret. cbn [concat]. now rewrite app_assoc.
Qed.

Lemma scrape_all_is_catalog_run st :
  scrape_all_hypermarkets st = catalog_run st.
Proof.
  unfold scrape_all_hypermarkets, catalog_run.
  apply bind_ext; intros hs st1.
  unfold enumerate. now rewrite for_each_scrape.
Qed.

Lemma visit_shops_app total i hs1 hs2 st :
  visit_shops total i (hs1 ++ hs2) st
  = (rss1 <- visit_shops total i hs1 ;;
     rss2 <- visit_shops total (i + length hs1) hs2 ;;
     ret (rss1 ++ rss2)) st.
Proof.
  revert i st; induction hs1 as [|h r IH]; intros i st.
  - cbn. rewrite Nat.add_0_r. unfold bind, ret.
    destruct (visit_shops total i hs2 st) as [[rss|e] st1]; auto.
  - cbn [app visit_shops length]. unfold bind at 1 3 4.
    destruct (visit total i h st) as [[bs|e] st1]; [|reflexivity].
    unfold bind at 1. rewrite IH. unfold bind, ret.
    replace (S i + length r) with (i + S (length r)) by lia.
    destruct (visit_shops total (S i) r st1) as [[rss1|e] st2]; auto.
    destruct (visit_shops total (i + S (length r)) hs2 st2) as [[rss2|e] st3]; auto.
Qed.

(** A shop whose page cannot be fetched gives no record, and the walk
    goes on. *)
Lemma failed_fetch_empty b st :
  fetch_fails b st ->
  exists st', get_brochures_for_shop (url b) (name b) st = (Ok [], st').
Proof.
  intros (full_url & st1 & Hj & Hg).
  assert (st1 = st) as ->.
  { revert Hj. unfold urljoin. destruct (url b) as [u|]; [|now intros [= _ ->]].
    destruct (negb (truthy u)); [now intros [= _ ->]|].
    destruct (urlresolve BASE_URL u); [now intros [= _ ->]|discriminate]. }
  unfold get_brochures_for_shop. unfold bind at 1. rewrite Hj.
  unfold bind at 1. cbn [logger_info emit].
  unfold bind at 1. unfold get_page_content. unfold bind at 1 2.
  cbn [logger_info emit]. unfold io. cbn [world].
  destruct (http_get full_url (world st)) as [[soup|] w]; [discriminate|].
  eexists. reflexivity.
Qed.

End WalkFacts.

Section WalkTotal.
Context {P : Platform}.
Hypothesis resolves : forall u, urlresolve BASE_URL u <> None.

Lemma urljoin_returns u st :
  exists full_url, urljoin BASE_URL u st = (Ok full_url, st).
Proof.
  unfold urljoin. destruct u as [u|]; [|eexists; reflexivity].
  destruct (negb (truthy u)); [eexists; reflexivity|].
  destruct (urlresolve BASE_URL u) eqn:E; [eexists; reflexivity|].
  now apply resolves in E.
Qed.

Lemma get_page_content_returns u st :
  exists o st', get_page_content u st = (Ok o, st').
Proof.
  unfold get_page_content, bind, io, logger_info, emit. cbn [world logged].
  destruct (http_get u (world st)) as [[soup|] w]; do 2 eexists; reflexivity.
Qed.

Lemma map_m_extract_returns shop frags st :
  exists results st', map_m (extract_logged shop) frags st = (Ok results, st').
Proof.
  revert st; induction frags as [|x r IH]; intros st.
  - do 2 eexists; reflexivity.
  - cbn [map_m]. unfold bind at 1. unfold extract_logged at 1. unfold bind at 1.
    destruct (extract_never_raises x shop st) as (o & st1 & ->).
    unfold bind at 1.
    assert (exists st2, (match o with
                         | Some b =>
                             logger_info "Extrahovany letakovy data pre %s: %s (%s - %s)"
                               [AStr shop; AStr (title b); AStr (valid_from b);
                                AStr (valid_to b)]
                         | None =>
                             logger_warning
                               "Nepodarilo sa extrahovat data z letaku pre obchod %s"
                               [AStr shop]
                         end) st1 = (Ok tt, st2)) as (st2 & ->)
        by (destruct o; eexists; reflexivity).
    cbn [ret]. unfold bind at 1.
    destruct (IH st2) as (ys & st3 & ->). do 2 eexists; reflexivity.
Qed.

Lemma get_brochures_returns shop_url shop st :
  exists brochures st', get_brochures_for_shop shop_url shop st = (Ok brochures, st').
Proof.
  rewrite get_brochures_is_sequence. unfold shop_sequence.
  unfold bind at 1. destruct (urljoin_returns shop_url st) as (full_url & ->).
  unfold bind at 1. cbn [logger_info emit]. unfold bind at 1.
  destruct (get_page_content_returns full_url
              (mk_St (world st)
                 (mk_log INFO "Spracovavam obchod %s, URL: %s"
                    [AStr shop; AStr full_url] :: logged st)))
    as ([soup|] & st1 & ->).
  - unfold bind at 1. cbn [logger_info emit]. unfold bind at 1.
    destruct (map_m_extract_returns shop
                (find_all (py "div") (Some (py "brochure-thumb")) soup)
                (mk_St (world st1)
                   (mk_log INFO "Najdenych %d letakov pre obchod %s"
                      [AInt (length (find_all (py "div") (Some (py "brochure-thumb")) soup));
                       AStr shop] :: logged st1)))
      as (ys & st2 & ->).
    do 2 eexists; reflexivity.
  - do 2 eexists; reflexivity.
Qed.

Lemma visit_returns total i h st :
  exists brochures st', visit total i h st = (Ok brochures, st').
Proof.
  unfold visit. unfold bind at 1. cbn [logger_info emit]. unfold bind at 1.
  destruct (get_brochures_returns (url h) (name h)
              (mk_St (world st)
                 (mk_log INFO "Spracovavam obchod %s (%d/%d)"
                    [AStr (name h); AInt (i + 1); AInt total] :: logged st)))
    as (bs & st1 & ->).
  unfold bind, pause, io. destruct (i <? total - 1); do 2 eexists; reflexivity.
Qed.

Lemma visit_shops_returns total i hs st :
  exists sequences st', visit_shops total i hs st = (Ok sequences, st').
Proof.
  revert i st; induction hs as [|h r IH]; intros i st.
  - do 2 eexists; reflexivity.
  - cbn [visit_shops]. unfold bind at 1.
    destruct (visit_returns total i h st) as (bs & st1 & ->).
    unfold bind at 1. destruct (IH (S i) st1) as (rss & st2 & ->).
    do 2 eexists; reflexivity.
Qed.

Lemma get_hypermarket_links_returns st :
  exists hs st', get_hypermarket_links st = (Ok hs, st').
Proof.
  unfold get_hypermarket_links. unfold bind at 1.
  destruct (urljoin_returns (Some HYPERMARKETS_PATH) st) as (page_url & ->).
  unfold bind at 1.
  destruct (get_page_content_returns page_url st) as ([soup|] & st1 & ->).
  - destruct (find (py "ul") (Some (py "list-unstyled categories")) soup);
      do 2 eexists; reflexivity.
  - do 2 eexists; reflexivity.
Qed.

Lemma scrape_all_returns st :
  exists all_brochures st', scrape_all_hypermarkets st = (Ok all_brochures, st').
Proof.
  rewrite scrape_all_is_catalog_run. unfold catalog_run. unfold bind at 1.
  destruct (get_hypermarket_links_returns st) as (hs & st1 & ->).
  unfold bind at 1.
  destruct (visit_shops_returns (length hs) 0 hs st1) as (rss & st2 & ->).
  do 2 eexists; reflexivity.
Qed.

End WalkTotal.

Lemma pair_of {A B} (p : A * B) (a : A) : fst p = a -> p = (a, snd p).
Proof. intros <-. now destruct p. Qed.

(** C8: the aggregate of [scrape_all_hypermarkets] is the concatenation,
    in catalog order, of the shops' record sequences, and the sequence of a
    shop holds the records of the accepted fragments of its page in
    document order; the run returns whenever [urljoin] accepts the URLs it
    is given.  On the sample site the shops A, B and C give [a1, a2], [b1]
    and [c1, c2, c3], and the aggregate is [a1, a2, b1, c1, c2, c3]. *)
Theorem aggregate_is_concatenation :
  (forall (P : Platform) (st : St),
      scrape_all_hypermarkets st = catalog_run st)
  /\ (forall (P : Platform) (shop_url : option str) (shop : str) (st : St),
         get_brochures_for_shop shop_url shop st = shop_sequence shop_url shop st)
  /\ (forall (P : Platform) (st : St),
         (forall u, urlresolve BASE_URL u <> None) ->
         exists all_brochures st',
           scrape_all_hypermarkets st = (Ok all_brochures, st'))
  /\ fst (@get_hypermarket_links sample_platform (sample_state [])) = Ok sample_shops
  /\ fst (@visit_shops sample_platform 3 0 sample_shops (sample_state []))
     = Ok [[sample_record "A" "a1"; sample_record "A" "a2"];
           [sample_record "B" "b1"];
           [sample_record "C" "c1"; sample_record "C" "c2"; sample_record "C" "c3"]]
  /\ fst (@scrape_all_hypermarkets sample_platform (sample_state []))
     = Ok [sample_record "A" "a1"; sample_record "A" "a2";
           sample_record "B" "b1";
           sample_record "C" "c1"; sample_record "C" "c2"; sample_record "C" "c3"].
Proof.
  split; [intros; apply scrape_all_is_catalog_run|].
  split; [intros; apply get_brochures_is_sequence|].
  split; [intros P st H; now apply scrape_all_returns|].
  split; [vm_compute; reflexivity|].
  split; vm_compute; reflexivity.
Qed.

(** C9: when the page of shop [b] cannot be fetched at its turn, the visit
    of [b] returns no record and the run goes on: the aggregate is the
    records of the shops before [b] followed by the records of the shops
    after it. *)
Theorem failed_fetch_skipped (P : Platform) (hs1 hs2 : list Hypermarket)
  (b : Hypermarket) (st0 st st1 : St) (before : list (list Brochure)) :
  get_hypermarket_links st0 = (Ok (hs1 ++ b :: hs2), st) ->
  visit_shops (length (hs1 ++ b :: hs2)) 0 hs1 st = (Ok before, st1) ->
  fetch_fails b st1 ->
  exists st2,
    visit (length (hs1 ++ b :: hs2)) (length hs1) b st1 = (Ok [], st2) /\
    forall (after : list (list Brochure)) (st3 : St),
      visit_shops (length (hs1 ++ b :: hs2)) (S (length hs1)) hs2 st2
      = (Ok after, st3) ->
      scrape_all_hypermarkets st0 = (Ok (concat before ++ concat after), st3).
Proof.
  intros Hl Hb Hf. set (total := length (hs1 ++ b :: hs2)) in *.
  assert (Hv : exists st2, visit total (length hs1) b st1 = (Ok [], st2)).
  { destruct Hf as (full_url & st' & Hj & Hg).
    destruct (failed_fetch_empty b
                (mk_St (world st1)
                   (mk_log INFO "Spracovavam obchod %s (%d/%d)"
                      [AStr (name b); AInt (length hs1 + 1); AInt total] :: logged st1)))
      as (st2 & Hrun).
    - exists full_url. eexists. split; [|exact Hg].
      revert Hj. unfold urljoin. destruct (url b) as [u|]; [|intros [= ->]; reflexivity].
      destruct (negb (truthy u)); [intros [= ->]; reflexivity|].
      destruct (urlresolve BASE_URL u); [intros [= ->]; reflexivity|discriminate].
    - unfold visit. unfold bind at 1. cbn [logger_info emit]. unfold bind at 1.
      rewrite Hrun. unfold bind, pause, io.
      destruct (length hs1 <? total - 1); eexists; reflexivity. }
  destruct Hv as (st2 & Hv). exists st2. split; [exact Hv|].
  intros after st3 Ha.
  rewrite scrape_all_is_catalog_run. unfold catalog_run.
  unfold bind at 1. rewrite Hl. fold total.
  unfold bind at 1. rewrite visit_shops_app.
  unfold bind at 1. rewrite Hb. cbn [visit_shops Nat.add].
  unfold bind at 1 2. rewrite Hv. unfold bind at 1. rewrite Ha.
  cbn [ret]. rewrite concat_app. reflexivity.
Qed.

(** On the sample site with the page of B down: A's records, then C's. *)
Lemma failed_fetch_skipped_witness :
  let down := [py "https://www.prospektmaschine.de/b/"] in
  let shop_a := mk_hypermarket (Some (py "/a/")) (py "A") in
  let shop_b := mk_hypermarket (Some (py "/b/")) (py "B") in
  let shop_c := mk_hypermarket (Some (py "/c/")) (py "C") in
  fst (@get_hypermarket_links sample_platform (sample_state down))
  = Ok ([shop_a] ++ shop_b :: [shop_c])
  /\ fst (@visit_shops sample_platform 3 0 [shop_a]
            (snd (@get_hypermarket_links sample_platform (sample_state down))))
     = Ok [[sample_record "A" "a1"; sample_record "A" "a2"]]
  /\ fst (@scrape_all_hypermarkets sample_platform (sample_state down))
     = Ok [sample_record "A" "a1"; sample_record "A" "a2";
           sample_record "C" "c1"; sample_record "C" "c2"; sample_record "C" "c3"].
Proof.
  intros down shop_a shop_b shop_c.
  split; [vm_compute; reflexivity|]. split; [vm_compute; reflexivity|].
  set (st := snd (@get_hypermarket_links sample_platform (sample_state down))).
  set (st1 := snd (@visit_shops sample_platform 3 0 [shop_a] st)).
  assert (Hl : @get_hypermarket_links sample_platform (sample_state down)
               = (Ok ([shop_a] ++ shop_b :: [shop_c]), st))
    by (apply pair_of; vm_compute; reflexivity).
  assert (Hb : @visit_shops sample_platform 3 0 [shop_a] st
               = (Ok [[sample_record "A" "a1"; sample_record "A" "a2"]], st1))
    by (apply pair_of; vm_compute; reflexivity).
  assert (Hf : @fetch_fails sample_platform shop_b st1).
  { exists (py "https://www.prospektmaschine.de/b/"), st1.
    split; [reflexivity|vm_compute; reflexivity]. }
  destruct (@failed_fetch_skipped sample_platform [shop_a] [shop_c] shop_b
              (sample_state down) st st1 _ Hl Hb Hf) as (st2 & Hv & Hrun).
  assert (E2 : st2 = snd (@visit sample_platform 3 1 shop_b st1))
    by (cbn [length app] in Hv; now rewrite Hv).
  rewrite (Hrun [[sample_record "C" "c1"; sample_record "C" "c2";
                  sample_record "C" "c3"]]
             (snd (@visit_shops sample_platform 3 2 [shop_c] st2))).
  - reflexivity.
  - apply pair_of. rewrite E2. vm_compute. reflexivity.
Defined.

(** * More of the code *)

(** ** Strings *)

Lemma lstrip_head s c t : lstrip s = c :: t -> is_space c = false.
Proof.
  induction s as [|x s IH]; simpl; [discriminate|].
  destruct (is_space x) eqn:E; [exact IH|]. now intros [= <- _].
Qed.

Lemma strip_trimmed s : trimmed (strip s).
Proof.
  split; intros c t H.
  - unfold strip in H. destruct (rstrip_prefix (lstrip s)) as [post Hp].
    rewrite H in Hp. simpl in Hp. now apply lstrip_head in Hp.
  - unfold strip, rstrip in H. apply (f_equal (@rev char)) in H.
    rewrite rev_involutive, rev_app_distr in H. simpl in H.
    now apply lstrip_head in H.
Qed.

Lemma split_length sep s :
  length (split sep s) = S (count_occ N.eq_dec s sep).
Proof.
  induction s as [|c t IH]; simpl; [reflexivity|].
  destruct (N.eqb_spec c sep) as [->|Hne].
  - destruct (N.eq_dec sep sep); [|contradiction]. simpl. now rewrite IH.
  - destruct (N.eq_dec c sep); [contradiction|].
    destruct (split sep t) as [|h r] eqn:E; [now apply split_nonempty in E|].
    simpl in *. exact IH.
Qed.

Lemma fold_left_snoc {A B} (f : A -> B) (l : list A) (acc : list B) :
  fold_left (fun acc x => acc ++ [f x]) l acc = acc ++ map f l.
Proof.
  revert acc; induction l as [|x l IH]; intros acc; simpl.
  - now rewrite app_nil_r.
  - now rewrite IH, <- app_assoc.
Qed.

(** ** [parse_date]: the count of hyphens *)

(** X7: a text that, stripped, does not hold exactly one '-' is turned
    down before any pattern is tried: [parse_date] returns [(None, None)]
    and logs the warning about the format, the clock unread. *)
Theorem parse_date_one_hyphen (P : Platform) (date_str : str) (st : St) :
  hyphens (strip date_str) <> 1 ->
  parse_date date_str st
  = (Ok (None, None), warned "Neocakavany format datumu: %s" date_str st).
Proof.
  intros H. apply parse_date_wrong_count.
  rewrite split_length. unfold hyphens in H. lia.
Qed.

(** A range of ISO dates has five hyphens. *)
Lemma parse_date_one_hyphen_witness :
  hyphens (strip (py "2024-03-01 - 2024-03-15")) <> 1
  /\ @parse_date sample_platform (py "2024-03-01 - 2024-03-15") (sample_state [])
     = (Ok (None, None),
        warned "Neocakavany format datumu: %s" (py "2024-03-01 - 2024-03-15")
          (sample_state [])).
Proof.
  assert (H : hyphens (strip (py "2024-03-01 - 2024-03-15")) <> 1)
    by (vm_compute; discriminate).
  split; [exact H|].
  exact (parse_date_one_hyphen sample_platform _ (sample_state []) H).
Defined.

(** ** [get_hypermarket_links] *)

Section CatalogFacts.
Context {P : Platform}.

Lemma get_page_content_run u st :
  exists st',
    get_page_content u st = (Ok (fst (http_get u (world st))), st')
    /\ world st' = snd (http_get u (world st)).
Proof.
  unfold get_page_content, bind, io, logger_info, emit. cbn [world logged].
  destruct (http_get u (world st)) as [[soup|] w]; eexists; split; reflexivity.
Qed.

Lemma catalog_url_join page_url st :
  urlresolve BASE_URL HYPERMARKETS_PATH = Some page_url ->
  urljoin BASE_URL (Some HYPERMARKETS_PATH) st = (Ok page_url, st).
Proof. intros H. unfold urljoin. cbn [truthy HYPERMARKETS_PATH negb]. now rewrite H. Qed.

Lemma get_hypermarket_links_run page_url st :
  urlresolve BASE_URL HYPERMARKETS_PATH = Some page_url ->
  exists st',
    get_hypermarket_links st
    = (Ok (catalog_entries (fst (http_get page_url (world st)))), st')
    /\ world st' = snd (http_get page_url (world st)).
Proof.
  intros H. unfold get_hypermarket_links.
  unfold bind at 1. rewrite (catalog_url_join _ _ H).
  unfold bind at 1.
  destruct (get_page_content_run page_url st) as (st1 & -> & W).
  unfold catalog_entries.
  destruct (fst (http_get page_url (world st))) as [soup|].
  - destruct (find (py "ul") (Some (py "list-unstyled categories")) soup) as [c|].
    + rewrite fold_left_snoc. eexists; split; [reflexivity|exact W].
    + eexists; split; [reflexivity|exact W].
  - eexists; split; [reflexivity|exact W].
Qed.

End CatalogFacts.

(** X1: [get_hypermarket_links] fetches the catalog page once and returns
    one entry per link of the categories list, in document order, with the
    link's [href] and its stripped text; it returns the empty list when the
    page cannot be fetched or has no categories list.  No name in the
    result begins or ends with white space. *)
Theorem hypermarket_links_entries (P : Platform) (page_url : str) (st : St) :
  urlresolve BASE_URL HYPERMARKETS_PATH = Some page_url ->
  exists st',
    get_hypermarket_links st
    = (Ok (catalog_entries (fst (http_get page_url (world st)))), st')
    /\ world st' = snd (http_get page_url (world st))
    /\ (fst (http_get page_url (world st)) = None ->
        catalog_entries (fst (http_get page_url (world st))) = [])
    /\ forall h, In h (catalog_entries (fst (http_get page_url (world st)))) ->
                 trimmed (name h).
Proof.
  intros H. destruct (get_hypermarket_links_run page_url st H) as (st' & Hrun & W).
  exists st'. split; [exact Hrun|]. split; [exact W|]. split.
  - now intros ->.
  - intros h. unfold catalog_entries.
    destruct (fst (http_get page_url (world st))) as [soup|]; [|contradiction].
    destruct (find (py "ul") (Some (py "list-unstyled categories")) soup);
      [|contradiction].
    intros Hin. apply in_map_iff in Hin as (link & <- & _). apply strip_trimmed.
Qed.

(** The sample catalog lists A, B and C; the text " A " of the first link
    is stripped. *)
Lemma hypermarket_links_entries_witness :
  @urlresolve sample_platform BASE_URL HYPERMARKETS_PATH
  = Some (py "https://www.prospektmaschine.de/hypermarkte/")
  /\ fst (@get_hypermarket_links sample_platform (sample_state [])) = Ok sample_shops.
Proof.
  assert (H : @urlresolve sample_platform BASE_URL HYPERMARKETS_PATH
              = Some (py "https://www.prospektmaschine.de/hypermarkte/"))
    by reflexivity.
  split; [exact H|].
  destruct (hypermarket_links_entries sample_platform _ (sample_state []) H)
    as (st' & Hrun & _).
  rewrite Hrun. reflexivity.
Defined.

(** X2: when the catalog page cannot be fetched, or lists no shop, the run
    returns the empty aggregate: it has made that one request and nothing
    else, neither a visit nor a pause. *)
Theorem empty_catalog_empty_aggregate (P : Platform) (page_url : str) (st : St) :
  urlresolve BASE_URL HYPERMARKETS_PATH = Some page_url ->
  catalog_entries (fst (http_get page_url (world st))) = [] ->
  exists st',
    scrape_all_hypermarkets st = (Ok [], st')
    /\ world st' = snd (http_get page_url (world st)).
Proof.
  intros H He. destruct (get_hypermarket_links_run page_url st H) as (st' & Hrun & W).
  exists st'. split; [|exact W].
  unfold scrape_all_hypermarkets. unfold bind. rewrite Hrun, He. reflexivity.
Qed.

(** The sample site with the catalog page down. *)
Lemma empty_catalog_empty_aggregate_witness :
  let down := [py "https://www.prospektmaschine.de/hypermarkte/"] in
  @urlresolve sample_platform BASE_URL HYPERMARKETS_PATH
  = Some (py "https://www.prospektmaschine.de/hypermarkte/")
  /\ catalog_entries
       (fst (@http_get sample_platform (py "https://www.prospektmaschine.de/hypermarkte/")
               (@world sample_platform (sample_state down)))) = []
  /\ fst (@scrape_all_hypermarkets sample_platform (sample_state down)) = Ok [].
Proof.
  intros down.
  assert (H : @urlresolve sample_platform BASE_URL HYPERMARKETS_PATH
              = Some (py "https://www.prospektmaschine.de/hypermarkte/"))
    by reflexivity.
  assert (He : catalog_entries
                 (fst (@http_get sample_platform
                         (py "https://www.prospektmaschine.de/hypermarkte/")
                         (@world sample_platform (sample_state down)))) = [])
    by reflexivity.
  split; [exact H|]. split; [exact He|].
  destruct (empty_catalog_empty_aggregate sample_platform _ (sample_state down) H He)
    as (st' & Hrun & _).
  now rewrite Hrun.
Defined.

(** ** [extract_brochure_data] *)

Section ExtractMore.
Context {P : Platform}.

Lemma find_thumbnail_found brochure shop st u :
  found_thumbnail brochure = Some u ->
  find_thumbnail brochure shop st = (Ok (Some u), st).
Proof.
  unfold find_thumbnail, found_thumbnail.
  destruct (find (py "img") (Some (py "lazyloadBrochure")) brochure) as [img|].
  - destruct (truthy_opt (get (py "data-src") img)); [now intros ->|].
    destruct (find (py "img") None brochure) as [img'|]; [|discriminate].
    destruct (truthy_opt (py_or (get (py "src") img') (get (py "data-src") img')));
      [now intros ->|discriminate].
  - destruct (find (py "img") None brochure) as [img'|]; [|discriminate].
    destruct (truthy_opt (py_or (get (py "src") img') (get (py "data-src") img')));
      [now intros ->|discriminate].
Qed.

Lemma find_thumbnail_missing brochure shop st :
  found_thumbnail brochure = None ->
  exists st', find_thumbnail brochure shop st = (Ok None, st').
Proof.
  intros H. destruct (find_thumbnail_run brochure shop st) as (st' & Hrun & _).
  exists st'. now rewrite Hrun, H.
Qed.

Lemma find_date_element_found brochure shop st e :
  found_date_element brochure = Some e ->
  find_date_element brochure shop st = (Ok (Some e), st).
Proof.
  unfold find_date_element, found_date_element.
  destruct (find (py "small") (Some (py "visible-sm")) brochure); [now intros ->|].
  destruct (find (py "small") (Some (py "hidden-sm")) brochure);
    [now intros ->|discriminate].
Qed.

Lemma find_date_element_missing brochure shop st :
  found_date_element brochure = None ->
  exists st', find_date_element brochure shop st = (Ok None, st').
Proof.
  intros H. destruct (find_date_element_run brochure shop st) as (st' & Hrun & _).
  exists st'. now rewrite Hrun, H.
Qed.

Lemma iso_date_truthy y m d : truthy (iso_date y m d) = true.
Proof. unfold iso_date. now destruct y. Qed.

(** The dates [parse_date] returns are never empty, and never one
    without the other. *)
Lemma parse_date_dates date_str st o st' :
  parse_date date_str st = (Ok o, st') ->
  o = (None, None)
  \/ exists f t, o = (Some f, Some t) /\ truthy f = true /\ truthy t = true.
Proof.
  intros H.
  destruct (parse_date_cases date_str st)
    as [(s1 & Hrun & _)|[(f & t & Hrun & Hf & Ht)|(f & t & Hrun & Hf & Ht)]];
    rewrite Hrun in H; injection H as <- <-; [now left| |];
    right; exists f, t;
    destruct Hf as (y & m & d & -> & _), Ht as (y' & m' & d' & -> & _);
    now rewrite !iso_date_truthy.
Qed.

Lemma parse_date_returns date_str st :
  exists o st', parse_date date_str st = (Ok o, st').
Proof.
  destruct (parse_date_cases date_str st)
    as [(s1 & Hrun & _)|[(f & t & Hrun & _)|(f & t & Hrun & _)]]; eauto.
Qed.

Lemma thumbnail_join u st :
  truthy u = true ->
  (if negb (is_http u) then urljoin BASE_URL (Some u) else ret u) st
  = (match stored_thumbnail u with
     | Some stored => Ok stored
     | None => Raise ValueError
     end, st).
Proof.
  intros T. unfold stored_thumbnail. destruct (is_http u); [reflexivity|].
  cbn [negb]. unfold urljoin. rewrite T. cbn [negb].
  now destruct (urlresolve BASE_URL u).
Qed.

(** The body of the extractor on a fragment that is not stale and has a
    title, a thumbnail URL and a date element. *)
Lemma extract_body_complete brochure shop st title_element u date_element :
  find (py "div") (Some (py "grid-item-old")) brochure = None ->
  find (py "strong") None brochure = Some title_element ->
  found_thumbnail brochure = Some u ->
  found_date_element brochure = Some date_element ->
  extract_brochure_body brochure shop st
  = match stored_thumbnail u with
    | None => (Raise ValueError, st)
    | Some stored =>
        match parse_date (strip (get_text date_element)) st with
        | (Ok (Some f, Some t), st2) =>
            (Ok (Some (mk_brochure (strip (get_text title_element)) stored shop f t
                         (strftime (fst (clock (world st2)))))),
             after_clock st2)
        | (Ok _, st2) => (Ok None, st2)
        | (Raise e, st2) => (Raise e, st2)
        end
    end.
Proof.
  intros Hg Hs Hu Hd. unfold extract_brochure_body. rewrite Hg, Hs.
  unfold bind at 1. rewrite (find_thumbnail_found _ shop st _ Hu).
  unfold bind at 1. fold (is_http u).
  rewrite (thumbnail_join u st (found_thumbnail_truthy _ _ Hu)).
  destruct (stored_thumbnail u) as [stored|]; [|reflexivity].
  unfold bind at 1. rewrite (find_date_element_found _ shop st _ Hd).
  unfold bind at 1.
  destruct (parse_date (strip (get_text date_element)) st) as [[o|e] st2] eqn:Hp;
    [|reflexivity].
  destruct (parse_date_dates _ _ _ _ Hp) as [->|(f & t & -> & Tf & Tt)];
    [reflexivity|].
  rewrite Tf, Tt. cbn [negb orb]. unfold bind. now rewrite io_clock.
Qed.

Lemma stored_resolved u stored : stored_thumbnail u = Some stored <-> resolved u stored.
Proof.
  unfold stored_thumbnail, resolved. destruct (is_http u); [|tauto].
  split; [now intros [= ->]|now intros ->].
Qed.

End ExtractMore.

(** X4: the extractor accepts a fragment exactly when it has no stale
    marker, has a title element, a thumbnail URL that is absolute or that
    [urljoin] resolves, and a date element whose stripped text
    [parse_date] turns into two dates; the record then holds the stripped
    title, the stored URL, the shop name, the two dates and the time of
    the clock read after the parse.  The lookups log nothing on the way. *)
Theorem extract_accepts_iff (P : Platform) (brochure : Node) (shop : str)
  (st st' : St) (r : Brochure) :
  extract_brochure_data brochure shop st = (Ok (Some r), st') <->
  find (py "div") (Some (py "grid-item-old")) brochure = None /\
  exists title_element u date_element st2,
    find (py "strong") None brochure = Some title_element /\
    found_thumbnail brochure = Some u /\
    resolved u (thumbnail r) /\
    found_date_element brochure = Some date_element /\
    parse_date (strip (get_text date_element)) st
    = (Ok (Some (valid_from r), Some (valid_to r)), st2) /\
    title r = strip (get_text title_element) /\
    shop_name r = shop /\
    parsed_time r = strftime (fst (clock (world st2))) /\
    st' = after_clock st2.
Proof.
  unfold extract_brochure_data, try_except. split.
  - intros H.
    destruct (find (py "div") (Some (py "grid-item-old")) brochure) as [old|] eqn:Hg.
    { unfold extract_brochure_body in H. rewrite Hg in H. discriminate H. }
    split; [reflexivity|].
    destruct (find (py "strong") None brochure) as [te|] eqn:Hs.
    2:{ unfold extract_brochure_body in H. rewrite Hg, Hs in H. discriminate H. }
    destruct (found_thumbnail brochure) as [u|] eqn:Hu.
    2:{ unfold extract_brochure_body in H. rewrite Hg, Hs in H.
        unfold bind at 1 in H.
        destruct (find_thumbnail_missing brochure shop st Hu) as (s1 & E).
        rewrite E in H. discriminate H. }
    destruct (found_date_element brochure) as [de|] eqn:Hd.
    2:{ unfold extract_brochure_body in H. rewrite Hg, Hs in H.
        unfold bind at 1 in H. rewrite (find_thumbnail_found _ shop st _ Hu) in H.
        unfold bind at 1 in H. fold (is_http u) in H.
        rewrite (thumbnail_join u st (found_thumbnail_truthy _ _ Hu)) in H.
        destruct (stored_thumbnail u); [|discriminate H].
        unfold bind at 1 in H.
        destruct (find_date_element_missing brochure shop st Hd) as (s1 & E).
        rewrite E in H. discriminate H. }
    rewrite (extract_body_complete _ shop st _ _ _ Hg Hs Hu Hd) in H.
    destruct (stored_thumbnail u) as [stored|] eqn:Hst; [|discriminate H].
    destruct (parse_date (strip (get_text de)) st) as [[[[f|] [t|]]|e] st2] eqn:Hp;
      try discriminate H.
    injection H as <- <-.
    exists te, u, de, st2. cbn [title thumbnail shop_name valid_from valid_to parsed_time].
    repeat split; [now apply stored_resolved|exact Hp].
  - intros (Hg & te & u & de & st2 & Hs & Hu & Hr & Hd & Hp & Ht & Hn & Hc & ->).
    rewrite (extract_body_complete _ shop st _ _ _ Hg Hs Hu Hd).
    apply stored_resolved in Hr. rewrite Hr, Hp.
    destruct r as [rt rth rs rf rto rp]. cbn in Ht, Hn, Hc. now subst.
Qed.

(** X3: an error of [urljoin] on the thumbnail URL does not leave the
    extractor: the fragment is turned down and the error is logged. *)
Theorem extract_catches_urljoin (P : Platform) (brochure title_element : Node)
  (shop u : str) (st : St) :
  find (py "div") (Some (py "grid-item-old")) brochure = None ->
  find (py "strong") None brochure = Some title_element ->
  found_thumbnail brochure = Some u ->
  stored_thumbnail u = None ->
  extract_brochure_data brochure shop st
  = (Ok None,
     log_to ERROR "Chyba pri extrakcii dat letaku pre obchod %s: %s"
       [AStr shop; AExc ValueError] st).
Proof.
  intros Hg Hs Hu Hst.
  unfold extract_brochure_data, try_except, extract_brochure_body.
  rewrite Hg, Hs. unfold bind at 1. rewrite (find_thumbnail_found _ shop st _ Hu).
  unfold bind at 1. fold (is_http u).
  rewrite (thumbnail_join u st (found_thumbnail_truthy _ _ Hu)), Hst.
  reflexivity.
Qed.

Lemma extract_catches_urljoin_witness :
  find (py "div") (Some (py "grid-item-old")) unparsable_fragment = None
  /\ found_thumbnail unparsable_fragment = Some (py "//[img/a1.jpg")
  /\ @stored_thumbnail picky_platform (py "//[img/a1.jpg") = None
  /\ fst (@extract_brochure_data picky_platform unparsable_fragment (py "A")
            picky_state)
     = Ok None.
Proof.
  assert (Hg : find (py "div") (Some (py "grid-item-old")) unparsable_fragment = None)
    by reflexivity.
  assert (Hu : found_thumbnail unparsable_fragment = Some (py "//[img/a1.jpg"))
    by reflexivity.
  assert (Hst : @stored_thumbnail picky_platform (py "//[img/a1.jpg") = None)
    by reflexivity.
  split; [exact Hg|]. split; [exact Hu|]. split; [exact Hst|].
  rewrite (extract_catches_urljoin picky_platform unparsable_fragment
             (Elem (py "strong") [] [] [Text (py "a1")]) (py "A") _
             picky_state Hg eq_refl Hu Hst).
  reflexivity.
Defined.

(** X9: the title of a record neither begins nor ends with white
    space. *)
Theorem record_title_trimmed (P : Platform) (brochure : Node) (shop : str)
  (st st' : St) (r : Brochure) :
  extract_brochure_data brochure shop st = (Ok (Some r), st') ->
  trimmed (title r).
Proof.
  intros H. apply extract_accepted in H as (te & u & de & _ & _ & _ & _ & Ht & _).
  rewrite Ht. apply strip_trimmed.
Qed.

(** A title with white space around it. *)
Lemma record_title_trimmed_witness :
  @extract_brochure_data sample_platform
    (sample_fragment "  a1 " "https://img.example/t.jpg" "01.03.2024 - 15.03.2024")
    (py "A") (sample_state [])
  = (Ok (Some (sample_record "A" "a1")), sample_state [])
  /\ trimmed (py "a1").
Proof.
  assert (H : @extract_brochure_data sample_platform
                (sample_fragment "  a1 " "https://img.example/t.jpg"
                   "01.03.2024 - 15.03.2024")
                (py "A") (sample_state [])
              = (Ok (Some (sample_record "A" "a1")), sample_state [])) by reflexivity.
  split; [exact H|].
  exact (record_title_trimmed sample_platform _ _ _ _ _ H).
Defined.

(** ** The walks: where the records come from *)

Section Provenance.
Context {P : Platform}.

Lemma urljoin_state base u st o st' :
  urljoin base u st = (o, st') -> st' = st.
Proof.
  unfold urljoin. destruct u as [u|]; [|now intros [= _ <-]].
  destruct (negb (truthy u)); [now intros [= _ <-]|].
  destruct (urlresolve base u); now intros [= _ <-].
Qed.

(** The results of the extractor along a page, fragment by fragment. *)
Lemma map_m_extract_results shop frags st results st' :
  map_m (extract_logged shop) frags st = (Ok results, st') ->
  Forall2 (fun frag o =>
             exists sa sb, extract_brochure_data frag shop sa = (Ok o, sb))
    frags results.
Proof.
  revert st results; induction frags as [|x r IH]; intros st results.
  - intros [= <- _]. constructor.
  - cbn [map_m]. unfold bind at 1. unfold extract_logged at 1. unfold bind at 1.
    destruct (extract_brochure_data x shop st) as [[o|e] s1] eqn:Hx; [|discriminate].
    unfold bind at 1.
    assert (exists s2, (match o with
                        | Some b =>
                            logger_info "Extrahovany letakovy data pre %s: %s (%s - %s)"
                              [AStr shop; AStr (title b); AStr (valid_from b);
                               AStr (valid_to b)]
                        | None =>
                            logger_warning
                              "Nepodarilo sa extrahovat data z letaku pre obchod %s"
                              [AStr shop]
                        end) s1 = (Ok tt, s2)) as (s2 & ->)
        by (destruct o; eexists; reflexivity).
    cbn [ret]. unfold bind at 1.
    destruct (map_m (extract_logged shop) r s2) as [[ys|e] s3] eqn:Hr; [|discriminate].
    intros [= <- <-]. constructor; [exists st, s1; exact Hx|exact (IH _ _ Hr)].
Qed.

Lemma somes_length {A} (l : list (option A)) : length (somes l) <= length l.
Proof.
  induction l as [|[a|] l IH]; cbn; [lia| |]; unfold somes in IH; simpl; lia.
Qed.

Lemma in_somes {A} (a : A) (l : list (option A)) : In a (somes l) <-> In (Some a) l.
Proof.
  unfold somes. rewrite in_flat_map. split.
  - intros ([b|] & Hin & Hb); [|contradiction]. destruct Hb as [->|[]]. exact Hin.
  - intros Hin. exists (Some a). split; [exact Hin|now left].
Qed.

Lemma Forall2_in_right {A B} (R : A -> B -> Prop) l l' b :
  Forall2 R l l' -> In b l' -> exists a, In a l /\ R a b.
Proof.
  induction 1 as [|x y l l' Hxy _ IH]; [contradiction|].
  intros [<-|Hin].
  - exists x. split; [now left|exact Hxy].
  - destruct (IH Hin) as (a & Ha & Hr). exists a. split; [now right|exact Hr].
Qed.

Lemma Forall2_same_length {A B} (R : A -> B -> Prop) l l' :
  Forall2 R l l' -> length l = length l'.
Proof. induction 1; simpl; congruence. Qed.

(** What a walk of a shop's page returns, fragment by fragment. *)
Lemma shop_sequence_results shop_url shop st rs st' :
  get_brochures_for_shop shop_url shop st = (Ok rs, st') ->
  exists full_url,
    urljoin BASE_URL shop_url st = (Ok full_url, st) /\
    match fst (http_get full_url (world st)) with
    | None => rs = []
    | Some soup =>
        exists results,
          Forall2 (fun frag o =>
                     exists sa sb, extract_brochure_data frag shop sa = (Ok o, sb))
            (find_all (py "div") (Some (py "brochure-thumb")) soup) results
          /\ rs = somes results
    end.
Proof.
  rewrite get_brochures_is_sequence. unfold shop_sequence. unfold bind at 1.
  destruct (urljoin BASE_URL shop_url st) as [[full_url|e] s0] eqn:Hj; [|discriminate].
  pose proof (urljoin_state _ _ _ _ _ Hj) as ->.
  intros H. exists full_url. split; [reflexivity|]. revert H.
  unfold bind at 1. cbn [logger_info emit]. unfold bind at 1.
  destruct (get_page_content_run full_url
              (mk_St (world st)
                 (mk_log INFO "Spracovavam obchod %s, URL: %s"
                    [AStr shop; AStr full_url] :: logged st)))
    as (s1 & -> & _).
  cbn [world].
  destruct (fst (http_get full_url (world st))) as [soup|].
  - unfold bind at 1. cbn [logger_info emit]. unfold bind at 1.
    destruct (map_m (extract_logged shop) _ _) as [[results|e] s2] eqn:Hm;
      [|discriminate].
    intros [= <- _]. exists results. split; [|reflexivity].
    eapply map_m_extract_results; eauto.
  - now intros [= <- _].
Qed.

(** The record sequences of a run of visits, shop by shop. *)
Lemma visit_shops_results total i hs st rss st' :
  visit_shops total i hs st = (Ok rss, st') ->
  Forall2 (fun h rs =>
             exists sa sb,
               get_brochures_for_shop (url h) (name h) sa = (Ok rs, sb))
    hs rss.
Proof.
  revert i st rss; induction hs as [|h r IH]; intros i st rss.
  - intros [= <- _]. constructor.
  - cbn [visit_shops]. unfold bind at 1. unfold visit at 1.
    unfold bind at 1. cbn [logger_info emit]. unfold bind at 1.
    destruct (get_brochures_for_shop (url h) (name h) _) as [[bs|e] s1] eqn:Hb;
      [|discriminate].
    unfold bind at 1.
    destruct (pause total i s1) as [[[]|e] s2]; [|discriminate].
    cbn [ret]. unfold bind at 1.
    destruct (visit_shops total (S i) r s2) as [[rest|e] s3] eqn:Hr; [|discriminate].
    intros [= <- <-]. constructor; [eexists _, s1; exact Hb|exact (IH _ _ _ Hr)].
Qed.

End Provenance.

(** X5: the records a walk of a shop returns are exactly the records the
    extractor gives on the fragments of the fetched page, taken in document
    order with the rejected fragments left out: so there are no more
    records than fragments, and each carries the shop name of the walk. *)
Theorem shop_records_from_fragments (P : Platform) (shop_url : option str)
  (shop : str) (st st' : St) (rs : list Brochure) :
  get_brochures_for_shop shop_url shop st = (Ok rs, st') ->
  exists full_url,
    urljoin BASE_URL shop_url st = (Ok full_url, st) /\
    match fst (http_get full_url (world st)) with
    | None => rs = []
    | Some soup =>
        let fragments := find_all (py "div") (Some (py "brochure-thumb")) soup in
        (exists results,
            Forall2 (fun frag o =>
                       exists sa sb,
                         extract_brochure_data frag shop sa = (Ok o, sb))
              fragments results
            /\ rs = somes results)
        /\ length rs <= length fragments
        /\ forall r, In r rs -> shop_name r = shop
    end.
Proof.
  intros H. destruct (shop_sequence_results _ _ _ _ _ H) as (full_url & Hj & Hr).
  exists full_url. split; [exact Hj|].
  destruct (fst (http_get full_url (world st))) as [soup|]; [|exact Hr].
  destruct Hr as (results & HF & ->). cbv zeta. split; [eauto|]. split.
  - rewrite (Forall2_same_length _ _ _ HF). apply somes_length.
  - intros r Hin. apply in_somes in Hin.
    destruct (Forall2_in_right _ _ _ _ HF Hin) as (frag & _ & sa & sb & He).
    now apply extract_accepted in He as (_ & _ & _ & _ & _ & _ & _ & _ & _ & Hn & _).
Qed.

(** Shop A of the sample site: three fragments, the stale one left out. *)
Lemma shop_records_from_fragments_witness :
  fst (@get_brochures_for_shop sample_platform (Some (py "/a/")) (py "A")
         (sample_state []))
  = Ok [sample_record "A" "a1"; sample_record "A" "a2"]
  /\ exists full_url,
      @urljoin sample_platform BASE_URL (Some (py "/a/")) (sample_state [])
      = (Ok full_url, sample_state []) /\
      match fst (@http_get sample_platform full_url
                   (@world sample_platform (sample_state []))) with
      | None => [sample_record "A" "a1"; sample_record "A" "a2"] = []
      | Some soup =>
          let fragments := find_all (py "div") (Some (py "brochure-thumb")) soup in
          (exists results,
              Forall2 (fun frag o =>
                         exists sa sb,
                           @extract_brochure_data sample_platform frag (py "A") sa
                           = (Ok o, sb))
                fragments results
              /\ [sample_record "A" "a1"; sample_record "A" "a2"] = somes results)
          /\ length [sample_record "A" "a1"; sample_record "A" "a2"]
             <= length fragments
          /\ forall r, In r [sample_record "A" "a1"; sample_record "A" "a2"] ->
                       shop_name r = py "A"
      end.
Proof.
  assert (H : @get_brochures_for_shop sample_platform (Some (py "/a/")) (py "A")
                (sample_state [])
              = (Ok [sample_record "A" "a1"; sample_record "A" "a2"],
                 snd (@get_brochures_for_shop sample_platform (Some (py "/a/"))
                        (py "A") (sample_state []))))
    by (apply pair_of; vm_compute; reflexivity).
  split; [now rewrite H|].
  exact (shop_records_from_fragments sample_platform _ _ _ _ _ H).
Defined.

(** X6: every record of the aggregate was given by the extractor on some
    fragment for a shop of the catalog, and carries that shop's name. *)
Theorem aggregate_records_from_catalog (P : Platform) (st st1 st2 : St)
  (hs : list Hypermarket) (all_brochures : list Brochure) :
  get_hypermarket_links st = (Ok hs, st1) ->
  scrape_all_hypermarkets st = (Ok all_brochures, st2) ->
  forall r, In r all_brochures ->
    exists h frag sa sb,
      In h hs /\
      extract_brochure_data frag (name h) sa = (Ok (Some r), sb) /\
      shop_name r = name h.
Proof.
  intros Hl Hrun r Hin. revert Hrun.
  rewrite scrape_all_is_catalog_run. unfold catalog_run. unfold bind at 1.
  rewrite Hl. unfold bind at 1.
  destruct (visit_shops (length hs) 0 hs st1) as [[rss|e] s2] eqn:Hv; [|discriminate].
  intros [= <- _]. apply in_concat in Hin as (rs & Hrs & Hr).
  destruct (Forall2_in_right _ _ _ _ (visit_shops_results _ _ _ _ _ _ Hv) Hrs)
    as (h & Hh & sa & sb & Hb).
  destruct (shop_sequence_results _ _ _ _ _ Hb) as (full_url & _ & Hres).
  destruct (fst (http_get full_url (world sa))) as [soup|]; [|now subst rs].
  destruct Hres as (results & HF & ->). apply in_somes in Hr.
  destruct (Forall2_in_right _ _ _ _ HF Hr) as (frag & _ & sa' & sb' & He).
  exists h, frag, sa', sb'. split; [exact Hh|]. split; [exact He|].
  now apply extract_accepted in He as (_ & _ & _ & _ & _ & _ & _ & _ & _ & Hn & _).
Qed.

(** The record b1 of the sample run comes from shop B. *)
Lemma aggregate_records_from_catalog_witness :
  fst (@get_hypermarket_links sample_platform (sample_state [])) = Ok sample_shops
  /\ In (sample_record "B" "b1")
       [sample_record "A" "a1"; sample_record "A" "a2"; sample_record "B" "b1";
        sample_record "C" "c1"; sample_record "C" "c2"; sample_record "C" "c3"]
  /\ exists h frag sa sb,
      In h sample_shops /\
      @extract_brochure_data sample_platform frag (name h) sa
      = (Ok (Some (sample_record "B" "b1")), sb) /\
      shop_name (sample_record "B" "b1") = name h.
Proof.
  assert (Hl : @get_hypermarket_links sample_platform (sample_state [])
               = (Ok sample_shops,
                  snd (@get_hypermarket_links sample_platform (sample_state []))))
    by (apply pair_of; vm_compute; reflexivity).
  assert (Hrun : @scrape_all_hypermarkets sample_platform (sample_state [])
                 = (Ok [sample_record "A" "a1"; sample_record "A" "a2";
                        sample_record "B" "b1"; sample_record "C" "c1";
                        sample_record "C" "c2"; sample_record "C" "c3"],
                    snd (@scrape_all_hypermarkets sample_platform (sample_state []))))
    by (apply pair_of; vm_compute; reflexivity).
  assert (Hin : In (sample_record "B" "b1")
                  [sample_record "A" "a1"; sample_record "A" "a2";
                   sample_record "B" "b1"; sample_record "C" "c1";
                   sample_record "C" "c2"; sample_record "C" "c3"])
    by (right; right; left; reflexivity).
  split; [now rewrite Hl|]. split; [exact Hin|].
  exact (aggregate_records_from_catalog sample_platform _ _ _ _ _ Hl Hrun _ Hin).
Defined.

(** X10: an error of [urljoin] on the URL of a shop is caught nowhere:
    when the catalog lists a shop whose link [urljoin] rejects, and the
    shops before it have been visited, the run raises [ValueError] and
    returns no aggregate. *)
Theorem malformed_shop_url_aborts (P : Platform) (hs1 hs2 : list Hypermarket)
  (b : Hypermarket) (u : str) (st0 st st1 : St) (before : list (list Brochure)) :
  get_hypermarket_links st0 = (Ok (hs1 ++ b :: hs2), st) ->
  visit_shops (length (hs1 ++ b :: hs2)) 0 hs1 st = (Ok before, st1) ->
  url b = Some u ->
  truthy u = true ->
  urlresolve BASE_URL u = None ->
  exists st2, scrape_all_hypermarkets st0 = (Raise ValueError, st2).
Proof.
  intros Hl Hb Hu Tu Hr.
  rewrite scrape_all_is_catalog_run. unfold catalog_run.
  unfold bind at 1. rewrite Hl. unfold bind at 1. rewrite visit_shops_app.
  unfold bind at 1. rewrite Hb. cbn [visit_shops]. unfold bind at 1 2.
  unfold visit at 1. unfold bind at 1. cbn [logger_info emit]. unfold bind at 1.
  unfold get_brochures_for_shop. unfold bind at 1.
  unfold urljoin. rewrite Hu, Tu. cbn [negb]. rewrite Hr.
  eexists. reflexivity.
Qed.

(** The second link of the picky site cannot be parsed. *)
Lemma malformed_shop_url_aborts_witness :
  let shop_a := mk_hypermarket (Some (py "/a/")) (py "A") in
  let shop_b := mk_hypermarket (Some (py "//[b")) (py "B") in
  let shop_c := mk_hypermarket (Some (py "/c/")) (py "C") in
  fst (@get_hypermarket_links picky_platform picky_state)
  = Ok ([shop_a] ++ shop_b :: [shop_c])
  /\ @urlresolve picky_platform BASE_URL (py "//[b") = None
  /\ fst (@scrape_all_hypermarkets picky_platform picky_state) = Raise ValueError.
Proof.
  intros shop_a shop_b shop_c.
  set (st := snd (@get_hypermarket_links picky_platform picky_state)).
  set (st1 := snd (@visit_shops picky_platform 3 0 [shop_a] st)).
  assert (Hl : @get_hypermarket_links picky_platform picky_state
               = (Ok ([shop_a] ++ shop_b :: [shop_c]), st))
    by (apply pair_of; vm_compute; reflexivity).
  assert (Hb : @visit_shops picky_platform 3 0 [shop_a] st
               = (Ok [[sample_record "A" "a1"; sample_record "A" "a2"]], st1))
    by (apply pair_of; vm_compute; reflexivity).
  assert (Hr : @urlresolve picky_platform BASE_URL (py "//[b") = None) by reflexivity.
  split; [now rewrite Hl|]. split; [exact Hr|].
  destruct (malformed_shop_url_aborts picky_platform [shop_a] [shop_c] shop_b
              (py "//[b") picky_state st st1 _ Hl Hb eq_refl eq_refl Hr)
    as (st2 & Hrun).
  now rewrite Hrun.
Defined.

(** ** What a run does to the state *)

Section Moves.
Context {P : Platform}.
Variable R : St -> St -> Prop.
Hypothesis R_refl : forall st, R st st.
Hypothesis R_trans : forall a b c, R a b -> R b c -> R a c.
Hypothesis R_log : forall l msg args st, R st (log_to l msg args st).
Hypothesis R_clock : forall st, R st (after_clock st).
Hypothesis R_get :
  forall u st, R st (mk_St (snd (http_get u (world st))) (logged st)).

Lemma moves_ret {A} (a : A) : moves R (ret a).
Proof. intros st. apply R_refl. Qed.

Lemma moves_raise {A} (e : exn) : moves R (@raise P A e).
Proof. intros st. apply R_refl. Qed.

Lemma moves_bind {A B} (c : M A) (k : A -> M B) :
  moves R c -> (forall a, moves R (k a)) -> moves R (bind c k).
Proof.
  intros Hc Hk st. unfold bind. specialize (Hc st).
  destruct (c st) as [[a|e] s1]; [|exact Hc].
  eapply R_trans; [exact Hc|apply Hk].
Qed.

Lemma moves_try {A} (c : M A) (h : exn -> M A) :
  moves R c -> (forall e, moves R (h e)) -> moves R (try_except c h).
Proof.
  intros Hc Hh st. unfold try_except. specialize (Hc st).
  destruct (c st) as [[a|e] s1]; [exact Hc|].
  eapply R_trans; [exact Hc|apply Hh].
Qed.

Lemma moves_emit l msg args : moves R (emit l msg args).
Proof. intros st. apply R_log. Qed.

Lemma moves_clock : moves R (io clock).
Proof. intros st. rewrite io_clock. apply R_clock. Qed.

Lemma moves_get u : moves R (io (http_get u)).
Proof.
  intros st. unfold io. specialize (R_get u st).
  now destruct (http_get u (world st)).
Qed.

Lemma moves_for_each {A B} (body : B -> A -> M B) (l : list A) :
  (forall acc x, moves R (body acc x)) ->
  forall acc, moves R (for_each l acc body).
Proof.
  intros Hb. induction l as [|x l IH]; intros acc; cbn [for_each].
  - apply moves_ret.
  - apply moves_bind; [apply Hb|intros acc'; apply IH].
Qed.

Ltac moves_step :=
  match goal with
  | |- moves _ (bind _ _) => apply moves_bind; [|intros ?]
  | |- moves _ (ret _) => apply moves_ret
  | |- moves _ (raise _) => apply moves_raise
  | |- moves _ (try_except _ _) => apply moves_try; [|intros ?]
  | |- moves _ (emit _ _ _) => apply moves_emit
  | |- moves _ (logger_info _ _) => apply moves_emit
  | |- moves _ (logger_warning _ _) => apply moves_emit
  | |- moves _ (logger_error _ _) => apply moves_emit
  | |- moves _ (io clock) => apply moves_clock
  | |- moves _ (io (http_get _)) => apply moves_get
  | |- moves _ (match ?x with _ => _ end) => destruct x
  end.

Lemma moves_unpack3 l : moves R (unpack3 l).
Proof. unfold unpack3. repeat moves_step. Qed.

Lemma moves_unpack2 l : moves R (unpack2 l).
Proof. unfold unpack2. repeat moves_step. Qed.

Lemma moves_group1 m : moves R (group1 m).
Proof. unfold group1. repeat moves_step. Qed.

Lemma moves_parse_date date_str : moves R (parse_date date_str).
Proof.
  unfold parse_date, parse_date_except, parse_date_body.
  repeat first [apply moves_unpack3 | apply moves_unpack2 | apply moves_group1
               | moves_step].
Qed.

Lemma moves_urljoin base u : moves R (urljoin base u).
Proof. unfold urljoin. repeat moves_step. Qed.

Lemma moves_find_thumbnail brochure shop : moves R (find_thumbnail brochure shop).
Proof. unfold find_thumbnail. repeat moves_step. Qed.

Lemma moves_find_date_element brochure shop :
  moves R (find_date_element brochure shop).
Proof. unfold find_date_element. repeat moves_step. Qed.

Lemma moves_extract brochure shop : moves R (extract_brochure_data brochure shop).
Proof.
  unfold extract_brochure_data, extract_brochure_except, extract_brochure_body.
  repeat first [apply moves_find_thumbnail | apply moves_find_date_element
               | apply moves_urljoin | apply moves_parse_date | moves_step].
Qed.

Lemma moves_get_page_content u : moves R (get_page_content u).
Proof. unfold get_page_content. repeat moves_step. Qed.

Lemma moves_get_hypermarket_links : moves R get_hypermarket_links.
Proof.
  unfold get_hypermarket_links.
  repeat first [apply moves_urljoin | apply moves_get_page_content | moves_step].
Qed.

Lemma moves_collect shop acc x : moves R (collect_brochure shop acc x).
Proof.
  unfold collect_brochure. repeat first [apply moves_extract | moves_step].
Qed.

Lemma moves_get_brochures shop_url shop :
  moves R (get_brochures_for_shop shop_url shop).
Proof.
  unfold get_brochures_for_shop.
  repeat first [apply moves_urljoin | apply moves_get_page_content
               | apply moves_for_each; intros; apply moves_collect | moves_step].
Qed.

End Moves.

(** ** Counting what a run does to the world *)

Section Counting.
Context {P : Platform}.
Variable mu : World -> nat.
Hypothesis mu_clock : forall w, mu (snd (clock w)) = mu w.

Lemma same_count_refl st : same_count mu st st.
Proof. reflexivity. Qed.

Lemma same_count_trans a b c :
  same_count mu a b -> same_count mu b c -> same_count mu a c.
Proof. unfold same_count. congruence. Qed.

Lemma same_count_log l msg args st : same_count mu st (log_to l msg args st).
Proof. reflexivity. Qed.

Lemma same_count_clock st : same_count mu st (after_clock st).
Proof. unfold same_count, after_clock. cbn [world]. apply mu_clock. Qed.

(** The extractor touches the world by reading the clock only. *)
Lemma extract_same_count brochure shop :
  moves (same_count mu) (extract_brochure_data brochure shop).
Proof.
  apply moves_extract;
    first [exact same_count_refl | exact same_count_trans
          | exact same_count_log | exact same_count_clock].
Qed.

Lemma collect_loop_same_count shop frags acc :
  moves (same_count mu) (for_each frags acc (collect_brochure shop)).
Proof.
  apply moves_for_each;
    try first [exact same_count_refl | exact same_count_trans].
  intros acc' x. apply moves_collect;
    first [exact same_count_refl | exact same_count_trans
          | exact same_count_log | exact same_count_clock].
Qed.

Lemma moves_ok {A} R (c : M A) st a st' :
  moves R c -> c st = (Ok a, st') -> R st st'.
Proof. intros H E. specialize (H st). now rewrite E in H. Qed.

Section Requests.
Hypothesis mu_get : forall u w, mu (snd (http_get u w)) = S (mu w).
Hypothesis mu_sleep : forall n w, mu (sleep n w) = mu w.

Lemma requests_page u st o st' :
  get_page_content u st = (o, st') -> mu (world st') = S (mu (world st)).
Proof.
  destruct (get_page_content_run u st) as (s1 & -> & W).
  intros [= _ <-]. rewrite W. apply mu_get.
Qed.

Lemma requests_get_brochures shop_url shop st rs st' :
  get_brochures_for_shop shop_url shop st = (Ok rs, st') ->
  mu (world st') = S (mu (world st)).
Proof.
  unfold get_brochures_for_shop. unfold bind at 1.
  destruct (urljoin BASE_URL shop_url st) as [[full_url|e] s0] eqn:Hj; [|discriminate].
  apply urljoin_state in Hj as ->.
  unfold bind at 1. cbn [logger_info emit]. unfold bind at 1.
  destruct (get_page_content full_url _) as [[soup|e] s1] eqn:Hg; [|discriminate].
  apply requests_page in Hg. cbn [world] in Hg.
  destruct soup as [soup|].
  - unfold bind at 1. cbn [logger_info emit].
    intros H. apply (moves_ok _ _ _ _ _ (collect_loop_same_count _ _ _)) in H.
    unfold same_count in H. cbn [world] in H. congruence.
  - unfold bind. cbn [logger_error emit ret]. intros [= _ <-]. exact Hg.
Qed.

Lemma requests_links st hs st' :
  get_hypermarket_links st = (Ok hs, st') -> mu (world st') = S (mu (world st)).
Proof.
  unfold get_hypermarket_links. unfold bind at 1.
  destruct (urljoin BASE_URL (Some HYPERMARKETS_PATH) st) as [[page_url|e] s0] eqn:Hj;
    [|discriminate].
  apply urljoin_state in Hj as ->. unfold bind at 1.
  destruct (get_page_content page_url st) as [[soup|e] s1] eqn:Hg; [|discriminate].
  apply requests_page in Hg.
  destruct soup as [soup|];
    [destruct (find (py "ul") (Some (py "list-unstyled categories")) soup)|];
    unfold bind; cbn [logger_error logger_info emit ret];
    intros [= _ <-]; exact Hg.
Qed.

Lemma requests_visit_shops total i hs st rss st' :
  visit_shops total i hs st = (Ok rss, st') ->
  mu (world st') = mu (world st) + length hs.
Proof.
  revert i st rss; induction hs as [|h r IH]; intros i st rss.
  - intros [= _ <-]. simpl. lia.
  - cbn [visit_shops length]. unfold bind at 1. unfold visit at 1.
    unfold bind at 1. cbn [logger_info emit]. unfold bind at 1.
    destruct (get_brochures_for_shop (url h) (name h) _) as [[bs|e] s1] eqn:Hb;
      [|discriminate].
    apply requests_get_brochures in Hb. cbn [world] in Hb.
    unfold bind at 1.
    assert (Hp : exists s2, pause total i s1 = (Ok tt, s2)
                            /\ mu (world s2) = mu (world s1)).
    { unfold pause, io. destruct (i <? total - 1); eexists; split; try reflexivity.
      cbn [world]. apply mu_sleep. }
    destruct Hp as (s2 & -> & Hs). cbn [ret]. unfold bind at 1.
    destruct (visit_shops total (S i) r s2) as [[rest|e] s3] eqn:Hr; [|discriminate].
    intros [= _ <-]. apply IH in Hr. lia.
Qed.

End Requests.

End Counting.

(** ** What a run lets the world see *)

Section Tracing.
Context {P : Platform}.
Variable seen : World -> list happening.
Hypothesis seen_clock : forall w, seen (snd (clock w)) = seen w.
Hypothesis seen_get :
  forall u w, seen (snd (http_get u w)) = seen w ++ [Requested u].
Hypothesis seen_sleep : forall n w, seen (sleep n w) = seen w ++ [Slept n].

Lemma same_seen_refl st : same_seen seen st st.
Proof. reflexivity. Qed.

Lemma same_seen_trans a b c :
  same_seen seen a b -> same_seen seen b c -> same_seen seen a c.
Proof. unfold same_seen. congruence. Qed.

Lemma same_seen_log l msg args st : same_seen seen st (log_to l msg args st).
Proof. reflexivity. Qed.

Lemma same_seen_clock st : same_seen seen st (after_clock st).
Proof. unfold same_seen, after_clock. cbn [world]. apply seen_clock. Qed.

(** The loop over the fragments of a page shows the world nothing. *)
Lemma collect_loop_same_seen shop frags acc :
  moves (same_seen seen) (for_each frags acc (collect_brochure shop)).
Proof.
  apply moves_for_each;
    try first [exact same_seen_refl | exact same_seen_trans].
  intros acc' x. apply moves_collect;
    first [exact same_seen_refl | exact same_seen_trans
          | exact same_seen_log | exact same_seen_clock].
Qed.

(** What [urljoin] returns is what [joined] says. *)
Lemma urljoin_joined u st full_url st' :
  urljoin BASE_URL u st = (Ok full_url, st') -> joined u = Some full_url.
Proof.
  unfold urljoin, joined. destruct u as [u|]; [|now intros [= <- _]].
  destruct (negb (truthy u)); [now intros [= <- _]|].
  destruct (urlresolve BASE_URL u); [now intros [= <- _]|discriminate].
Qed.

(** Fetching a page is one request for it, whether it succeeds or not. *)
Lemma seen_page u st o st' :
  get_page_content u st = (o, st') ->
  seen (world st') = seen (world st) ++ [Requested u].
Proof.
  destruct (get_page_content_run u st) as (s1 & -> & W).
  intros [= _ <-]. rewrite W. apply seen_get.
Qed.

(** Reading the page of a shop is one request, for the joined URL. *)
Lemma seen_get_brochures shop_url shop st rs st' :
  get_brochures_for_shop shop_url shop st = (Ok rs, st') ->
  exists full_url,
    joined shop_url = Some full_url /\
    seen (world st') = seen (world st) ++ [Requested full_url].
Proof.
  unfold get_brochures_for_shop. unfold bind at 1.
  destruct (urljoin BASE_URL shop_url st) as [[full_url|e] s0] eqn:Hj; [|discriminate].
  pose proof (urljoin_joined _ _ _ _ Hj) as Hu.
  apply urljoin_state in Hj as ->.
  unfold bind at 1. cbn [logger_info emit]. unfold bind at 1.
  destruct (get_page_content full_url _) as [[soup|e] s1] eqn:Hg; [|discriminate].
  apply seen_page in Hg. cbn [world] in Hg.
  destruct soup as [soup|].
  - unfold bind at 1. cbn [logger_info emit].
    intros H. apply (moves_ok _ _ _ _ _ (collect_loop_same_seen _ _ _)) in H.
    unfold same_seen in H. cbn [world] in H.
    exists full_url. split; [exact Hu|congruence].
  - unfold bind. cbn [logger_error emit ret]. intros [= _ <-].
    exists full_url. split; [exact Hu|exact Hg].
Qed.

(** Reading the catalog is one request, for the catalog page. *)
Lemma seen_links st hs st' :
  get_hypermarket_links st = (Ok hs, st') ->
  exists page_url,
    joined (Some HYPERMARKETS_PATH) = Some page_url /\
    seen (world st') = seen (world st) ++ [Requested page_url].
Proof.
  unfold get_hypermarket_links. unfold bind at 1.
  destruct (urljoin BASE_URL (Some HYPERMARKETS_PATH) st) as [[page_url|e] s0] eqn:Hj;
    [|discriminate].
  pose proof (urljoin_joined _ _ _ _ Hj) as Hu.
  apply urljoin_state in Hj as ->. unfold bind at 1.
  destruct (get_page_content page_url st) as [[soup|e] s1] eqn:Hg; [|discriminate].
  apply seen_page in Hg.
  destruct soup as [soup|];
    [destruct (find (py "ul") (Some (py "list-unstyled categories")) soup)|];
    unfold bind; cbn [logger_error logger_info emit ret];
    intros [= _ <-]; exists page_url; split; first [exact Hu|exact Hg].
Qed.

(** The pause after the [i]-th of [total] shops: one second of sleep
    unless the shop is the last. *)
Lemma seen_pause total i st :
  exists st',
    pause total i st = (Ok tt, st') /\
    seen (world st')
    = seen (world st) ++ (if i <? total - 1 then [Slept 1] else []).
Proof.
  unfold pause, io. destruct (i <? total - 1); eexists; split; try reflexivity.
  - cbn [world]. apply seen_sleep.
  - cbn [ret snd]. now rewrite app_nil_r.
Qed.

(** The visits of the shops from the [i]-th on, as the world sees
    them. *)
Lemma seen_visit_shops total i hs st rss st' :
  visit_shops total i hs st = (Ok rss, st') ->
  i + length hs = total ->
  exists urls,
    Forall2 (fun h full_url => joined (url h) = Some full_url) hs urls /\
    seen (world st') = seen (world st) ++ visits_seen urls.
Proof.
  revert i st rss; induction hs as [|h r IH]; intros i st rss.
  - intros [= _ <-] _. exists []. split; [constructor|].
    cbn [visits_seen]. now rewrite app_nil_r.
  - cbn [visit_shops length]. unfold bind at 1. unfold visit at 1.
    unfold bind at 1. cbn [logger_info emit]. unfold bind at 1.
    destruct (get_brochures_for_shop (url h) (name h) _) as [[bs|e] s1] eqn:Hb;
      [|discriminate].
    apply seen_get_brochures in Hb as (full_url & Hu & Hb). cbn [world] in Hb.
    unfold bind at 1.
    destruct (seen_pause total i s1) as (s2 & -> & Hs). cbn [ret]. unfold bind at 1.
    destruct (visit_shops total (S i) r s2) as [[rest|e] s3] eqn:Hr; [|discriminate].
    intros [= _ <-] Ht. apply IH in Hr as (urls & Hf & Hr); [|lia].
    exists (full_url :: urls). split; [now constructor|].
    rewrite Hr, Hs, Hb, <- !app_assoc. f_equal.
    destruct Hf as [|h' u' r' urls' Hh' Hf'].
    + replace (i <? total - 1) with false
        by (symmetry; apply Nat.ltb_ge; simpl in Ht; lia).
      reflexivity.
    + replace (i <? total - 1) with true
        by (symmetry; apply Nat.ltb_lt; simpl in Ht; lia).
      reflexivity.
Qed.

End Tracing.

(** X8: the run pauses for one second between two consecutive visits, and
    neither before the first nor after the last: an observer of the
    world who notes every request and every [sleep], and whom the clock
    shows nothing, sees of a run that returns the request for the catalog
    page and then, for the shops in catalog order, the request for the
    page of each with one [sleep(1)] between two of them. *)
Theorem one_pause_between_visits (P : Platform) (seen : World -> list happening)
  (st st1 st2 : St) (hs : list Hypermarket) (all_brochures : list Brochure) :
  (forall w, seen (snd (clock w)) = seen w) ->
  (forall u w, seen (snd (http_get u w)) = seen w ++ [Requested u]) ->
  (forall n w, seen (sleep n w) = seen w ++ [Slept n]) ->
  get_hypermarket_links st = (Ok hs, st1) ->
  scrape_all_hypermarkets st = (Ok all_brochures, st2) ->
  exists page_url urls,
    joined (Some HYPERMARKETS_PATH) = Some page_url /\
    Forall2 (fun h full_url => joined (url h) = Some full_url) hs urls /\
    seen (world st2)
    = seen (world st) ++ Requested page_url :: visits_seen urls.
Proof.
  intros Hc Hg Hs Hl. rewrite scrape_all_is_catalog_run. unfold catalog_run.
  unfold bind at 1. rewrite Hl. unfold bind at 1.
  destruct (visit_shops (length hs) 0 hs st1) as [[rss|e] s2] eqn:Hv; [|discriminate].
  intros [= _ <-].
  apply (seen_visit_shops seen Hc Hg Hs) in Hv as (urls & Hf & Hv); [|reflexivity].
  apply (seen_links seen Hg) in Hl as (page_url & Hu & Hl).
  exists page_url, urls. split; [exact Hu|]. split; [exact Hf|].
  rewrite Hv, Hl, <- app_assoc. reflexivity.
Qed.

(** Three shops on the sample site, the page of B down: the catalog, then
    A, a pause, B, a pause, C. *)
Lemma one_pause_between_visits_witness :
  let down := [py "https://www.prospektmaschine.de/b/"] in
  fst (@get_hypermarket_links tracing_platform (tracing_state down))
  = Ok sample_shops
  /\ snd (@world tracing_platform
            (snd (@scrape_all_hypermarkets tracing_platform (tracing_state down))))
     = [Requested (py "https://www.prospektmaschine.de/hypermarkte/");
        Requested (py "https://www.prospektmaschine.de/a/");
        Slept 1;
        Requested (py "https://www.prospektmaschine.de/b/");
        Slept 1;
        Requested (py "https://www.prospektmaschine.de/c/")].
Proof.
  intros down.
  assert (Hl : @get_hypermarket_links tracing_platform (tracing_state down)
               = (Ok sample_shops,
                  snd (@get_hypermarket_links tracing_platform (tracing_state down))))
    by (apply pair_of; vm_compute; reflexivity).
  assert (Hrun : @scrape_all_hypermarkets tracing_platform (tracing_state down)
                 = (Ok [sample_record "A" "a1"; sample_record "A" "a2";
                        sample_record "C" "c1";
                        sample_record "C" "c2"; sample_record "C" "c3"],
                    snd (@scrape_all_hypermarkets tracing_platform
                           (tracing_state down))))
    by (apply pair_of; vm_compute; reflexivity).
  split; [now rewrite Hl|].
  destruct (one_pause_between_visits tracing_platform (fun w => snd w)
              _ _ _ _ _ (fun w => eq_refl) (fun u w => eq_refl) (fun n w => eq_refl)
              Hl Hrun) as (page_url & urls & Hu & Hf & Hseen).
  injection Hu as <-.
  inversion Hf as [|h1 u1 r1 l1 H1 Hf1]; subst. injection H1 as <-.
  inversion Hf1 as [|h2 u2 r2 l2 H2 Hf2]; subst. injection H2 as <-.
  inversion Hf2 as [|h3 u3 r3 l3 H3 Hf3]; subst. injection H3 as <-.
  inversion Hf3; subst.
  exact Hseen.
Defined.

(** X11: the run asks for every page once and never again: whatever is
    counted in the world that a request raises by one and that the clock
    and [sleep] leave alone, a run that returns has raised it by one for
    the catalog and one for each shop, whether the requests succeeded or
    not. *)
Theorem one_request_per_page (P : Platform) (mu : World -> nat)
  (st st1 st2 : St) (hs : list Hypermarket) (all_brochures : list Brochure) :
  (forall w, mu (snd (clock w)) = mu w) ->
  (forall u w, mu (snd (http_get u w)) = S (mu w)) ->
  (forall n w, mu (sleep n w) = mu w) ->
  get_hypermarket_links st = (Ok hs, st1) ->
  scrape_all_hypermarkets st = (Ok all_brochures, st2) ->
  mu (world st2) = mu (world st) + 1 + length hs.
Proof.
  intros Hc Hg Hs Hl. rewrite scrape_all_is_catalog_run. unfold catalog_run.
  unfold bind at 1. rewrite Hl. unfold bind at 1.
  destruct (visit_shops (length hs) 0 hs st1) as [[rss|e] s2] eqn:Hv; [|discriminate].
  intros [= _ <-].
  apply (requests_visit_shops mu Hc Hg Hs) in Hv.
  apply (requests_links mu Hg) in Hl. lia.
Qed.

(** Three shops on the sample site, the page of B down: four requests. *)
Lemma one_request_per_page_witness :
  let down := [py "https://www.prospektmaschine.de/b/"] in
  fst (@get_hypermarket_links counting_platform (counting_state down))
  = Ok sample_shops
  /\ requests (snd (@world counting_platform
                      (snd (@scrape_all_hypermarkets counting_platform
                              (counting_state down))))) = 4.
Proof.
  intros down.
  assert (Hl : @get_hypermarket_links counting_platform (counting_state down)
               = (Ok sample_shops,
                  snd (@get_hypermarket_links counting_platform (counting_state down))))
    by (apply pair_of; vm_compute; reflexivity).
  assert (Hrun : @scrape_all_hypermarkets counting_platform (counting_state down)
                 = (Ok [sample_record "A" "a1"; sample_record "A" "a2";
                        sample_record "C" "c1";
                        sample_record "C" "c2"; sample_record "C" "c3"],
                    snd (@scrape_all_hypermarkets counting_platform
                           (counting_state down))))
    by (apply pair_of; vm_compute; reflexivity).
  split; [now rewrite Hl|].
  exact (one_request_per_page counting_platform (fun w => requests (snd w))
           _ _ _ _ _ (fun w => eq_refl) (fun u w => eq_refl) (fun n w => eq_refl)
           Hl Hrun).
Defined.

(** ** What is logged *)

Section Logged.
Context {P : Platform}.

(** A failed parse logs one warning; a parse that succeeds logs nothing. *)
Lemma parse_date_log date_str st o st' :
  parse_date date_str st = (Ok o, st') ->
  (o = (None, None) /\ exists msg, st' = warned msg date_str st)
  \/ (exists f t, o = (Some f, Some t) /\ logged st' = logged st).
Proof.
  intros H.
  destruct (Nat.eq_dec (length (split dash (strip date_str))) 2) as [E|E].
  2:{ rewrite (parse_date_wrong_count _ _ E) in H. injection H as <- <-.
      left. eauto. }
  apply length_two in E as (a & b & E).
  assert (Hshort :
            ~ (contains date_pattern_full (strip a)
               /\ contains date_pattern_full (strip b)) ->
            (o = (None, None) /\ exists msg, st' = warned msg date_str st)
            \/ (exists f t, o = (Some f, Some t) /\ logged st' = logged st)).
  { intros Hn.
    destruct (contains_dec date_pattern_short (strip a)) as [Sa|Sa];
      [destruct (contains_dec date_pattern_short (strip b)) as [Sb|Sb]|].
    - apply first_match_exists in Sa as (ga & Sa), Sb as (gb & Sb).
      destruct (first_short_groups _ _ Sa) as (d1 & m1 & ->).
      destruct (first_short_groups _ _ Sb) as (d2 & m2 & ->).
      destruct (parse_date_short_path _ _ _ _ _ _ _ st E Hn Sa Sb) as (y & Hrun & _).
      rewrite Hrun in H. injection H as <- <-. right. eauto.
    - rewrite (parse_date_no_match _ _ _ st E Hn) in H by tauto.
      injection H as <- <-. left. eauto.
    - rewrite (parse_date_no_match _ _ _ st E Hn) in H by tauto.
      injection H as <- <-. left. eauto. }
  destruct (contains_dec date_pattern_full (strip a)) as [Fa|Fa];
    [destruct (contains_dec date_pattern_full (strip b)) as [Fb|Fb]|];
    [|apply Hshort; tauto|apply Hshort; tauto].
  apply first_match_exists in Fa as (ga & Fa), Fb as (gb & Fb).
  destruct (first_full_groups _ _ Fa) as (d1 & m1 & y1 & ->).
  destruct (first_full_groups _ _ Fb) as (d2 & m2 & y2 & ->).
  rewrite (parse_date_full_path _ _ _ _ _ _ _ _ _ st E Fa Fb) in H.
  injection H as <- <-. right. eauto.
Qed.

Lemma find_thumbnail_missing_log brochure shop st :
  found_thumbnail brochure = None ->
  exists msg, find_thumbnail brochure shop st
              = (Ok None, log_to WARNING msg [AStr shop] st).
Proof.
  unfold find_thumbnail, found_thumbnail.
  assert (F : forall o, (if truthy_opt o then o else None) = None ->
                        truthy_opt o = false).
  { intros [s|]; simpl; [|reflexivity]. now destruct (truthy s). }
  destruct (find (py "img") (Some (py "lazyloadBrochure")) brochure) as [img|].
  - destruct (truthy_opt (get (py "data-src") img)) eqn:E.
    + intros H. rewrite H in E. discriminate E.
    + destruct (find (py "img") None brochure) as [img'|].
      * intros H. rewrite (F _ H). eexists; reflexivity.
      * intros _. eexists; reflexivity.
  - destruct (find (py "img") None brochure) as [img'|].
    + intros H. rewrite (F _ H). eexists; reflexivity.
    + intros _. eexists; reflexivity.
Qed.

Lemma find_date_element_missing_log brochure shop st :
  found_date_element brochure = None ->
  exists msg, find_date_element brochure shop st
              = (Ok None, log_to WARNING msg [AStr shop] st).
Proof.
  unfold find_date_element, found_date_element.
  destruct (find (py "small") (Some (py "visible-sm")) brochure); [discriminate|].
  destruct (find (py "small") (Some (py "hidden-sm")) brochure); [discriminate|].
  intros _. eexists; reflexivity.
Qed.

End Logged.

(** X12: the extractor logs nothing for a fragment it accepts and nothing
    for a stale one, which it leaves without touching the state; every other
    rejection adds exactly one record to the log, a warning or an error. *)
Theorem extract_logs_rejections (P : Platform) (brochure : Node) (shop : str)
  (st st' : St) (o : option Brochure) :
  extract_brochure_data brochure shop st = (Ok o, st') ->
  match o with
  | Some _ => logged st' = logged st
  | None =>
      match find (py "div") (Some (py "grid-item-old")) brochure with
      | Some _ => st' = st
      | None =>
          exists record,
            logged st' = record :: logged st /\ log_level record <> INFO
      end
  end.
Proof.
  intros H.
  destruct (find (py "div") (Some (py "grid-item-old")) brochure) as [old|] eqn:Hg.
  { revert H. unfold extract_brochure_data, try_except, extract_brochure_body.
    rewrite Hg. now intros [= <- <-]. }
  destruct (find (py "strong") None brochure) as [te|] eqn:Hs.
  2:{ revert H. unfold extract_brochure_data, try_except, extract_brochure_body.
      rewrite Hg, Hs. intros [= <- <-]. eexists; split; [reflexivity|discriminate]. }
  destruct (found_thumbnail brochure) as [u|] eqn:Hu.
  2:{ revert H. unfold extract_brochure_data, try_except, extract_brochure_body.
      rewrite Hg, Hs. unfold bind at 1.
      destruct (find_thumbnail_missing_log brochure shop st Hu) as (msg & ->).
      intros [= <- <-]. eexists; split; [reflexivity|discriminate]. }
  destruct (stored_thumbnail u) as [stored|] eqn:Hst.
  2:{ revert H. unfold extract_brochure_data, try_except, extract_brochure_body.
      rewrite Hg, Hs. unfold bind at 1. rewrite (find_thumbnail_found _ shop st _ Hu).
      unfold bind at 1. fold (is_http u).
      rewrite (thumbnail_join u st (found_thumbnail_truthy _ _ Hu)), Hst.
      intros [= <- <-]. eexists; split; [reflexivity|discriminate]. }
  destruct (found_date_element brochure) as [de|] eqn:Hd.
  2:{ revert H. unfold extract_brochure_data, try_except, extract_brochure_body.
      rewrite Hg, Hs. unfold bind at 1. rewrite (find_thumbnail_found _ shop st _ Hu).
      unfold bind at 1. fold (is_http u).
      rewrite (thumbnail_join u st (found_thumbnail_truthy _ _ Hu)), Hst.
      unfold bind at 1.
      destruct (find_date_element_missing_log brochure shop st Hd) as (msg & ->).
      intros [= <- <-]. eexists; split; [reflexivity|discriminate]. }
  revert H. unfold extract_brochure_data, try_except.
  rewrite (extract_body_complete _ shop st _ _ _ Hg Hs Hu Hd), Hst.
  destruct (parse_date (strip (get_text de)) st) as [[po|e] st2] eqn:Hp.
  2:{ destruct (parse_date_returns (strip (get_text de)) st) as (o' & s' & E).
      congruence. }
  destruct (parse_date_log _ _ _ _ Hp) as [(-> & msg & ->)|(f & t & -> & Hl)].
  - intros [= <- <-]. eexists; split; [reflexivity|discriminate].
  - intros [= <- <-]. exact Hl.
Qed.

(** A stale fragment, a fragment without a title and an accepted one. *)
Lemma extract_logs_rejections_witness :
  @extract_brochure_data sample_platform stale_fragment (py "A") (sample_state [])
  = (Ok None, sample_state [])
  /\ @extract_brochure_data sample_platform untitled_fragment (py "A") (sample_state [])
     = (Ok None,
        log_to WARNING "Chyba nadpis letaku pre obchod %s" [AStr (py "A")]
          (sample_state []))
  /\ exists record,
      logged (log_to WARNING "Chyba nadpis letaku pre obchod %s" [AStr (py "A")]
                (sample_state []))
      = record :: logged (sample_state [])
      /\ log_level record <> INFO.
Proof.
  assert (H : @extract_brochure_data sample_platform untitled_fragment (py "A")
                (sample_state [])
              = (Ok None,
                 log_to WARNING "Chyba nadpis letaku pre obchod %s" [AStr (py "A")]
                   (sample_state []))) by reflexivity.
  split; [reflexivity|]. split; [exact H|].
  exact (extract_logs_rejections sample_platform _ _ _ _ _ H).
Defined.
